(** * tutorials/Working_with_fNIRS_data.py

    A verification development for the fNIRS tutorial script.  The module is
    a straight-line sequence of calls into numpy and mne; it defines no
    function of its own.  The development has three layers:

    - [Lexical]: the physical lines of the two assignments that are spread
      over two lines, and the line-joining rules of the Python lexer that
      decide whether the module is accepted at all;
    - the script's constants and its statement sequence, embedded in a small
      state-and-exception monad over an abstract [Library] (numpy, mne and
      the builtins are external to the repository and are taken as an
      interface), with the recording as a mutable heap object;
    - the documented contracts of the library calls the properties rest on,
      and one small executable library used to run the script on data.

    Numeric literals are embedded by their decimal value in [Q]. *)

From Stdlib Require Import ZArith QArith Qround List String Ascii Lia Bool DecimalString DecimalNat Lqa.
From stdpp Require Import base gmap strings list.

Set Default Proof Using "Type".

(** ** Lexical structure: physical and logical lines *)

Module Lexical.

(** Python Language Reference, 2.1.3 to 2.1.6.  The end of a physical line
    ends the logical line, unless the line is joined to the next one:
    explicitly, by a backslash as its very last character outside a string
    literal or comment, or implicitly, inside parentheses, square brackets or
    curly braces.  String literals and comments hide the characters they
    contain.  Triple-quoted literals do not occur on the lines embedded
    here and are not modelled. *)

Inductive mode :=
| Code                      (* between tokens *)
| Str (q : ascii)           (* inside a literal opened by quote [q] *)
| StrEsc (q : ascii)        (* after a backslash inside such a literal *)
| Comment                   (* after '#' *)
| Continuation              (* after a backslash in code: must be end of line *)
| Bad.                      (* something followed that backslash *)

Record lexst := mkLex {
  depth : nat;              (* open brackets *)
  md : mode;
  last : option ascii       (* last significant character of the logical line *)
}.

Definition init : lexst := mkLex 0 Code None.

Definition dquote : ascii := ascii_of_nat 34.

Definition is_quote (c : ascii) : bool := Ascii.eqb c "'" || Ascii.eqb c dquote.
Definition is_open (c : ascii) : bool :=
  Ascii.eqb c "(" || Ascii.eqb c "[" || Ascii.eqb c "{".
Definition is_close (c : ascii) : bool :=
  Ascii.eqb c ")" || Ascii.eqb c "]" || Ascii.eqb c "}".
Definition is_blank (c : ascii) : bool :=
  Ascii.eqb c " " || Ascii.eqb c (ascii_of_nat 9).

Definition step (s : lexst) (c : ascii) : lexst :=
  match md s with
  | Comment | Bad => s
  | Continuation => mkLex (depth s) Bad (last s)
  | StrEsc q => mkLex (depth s) (Str q) (last s)
  | Str q =>
      if Ascii.eqb c "\" then mkLex (depth s) (StrEsc q) (last s)
      else if Ascii.eqb c q then mkLex (depth s) Code (Some q)
      else s
  | Code =>
      if Ascii.eqb c "#" then mkLex (depth s) Comment (last s)
      else if Ascii.eqb c "\" then mkLex (depth s) Continuation (last s)
      else if is_quote c then mkLex (depth s) (Str c) (last s)
      else if is_open c then mkLex (S (depth s)) Code (Some c)
      else if is_close c then mkLex (pred (depth s)) Code (Some c)
      else if is_blank c then s
      else mkLex (depth s) Code (Some c)
  end.

Fixpoint scan (s : lexst) (l : string) : lexst :=
  match l with
  | EmptyString => s
  | String c l' => scan (step s c) l'
  end.

Inductive eol :=
| Joined (s : lexst)            (* the logical line goes on *)
| Newline (t : option ascii)    (* NEWLINE token after last character [t] *)
| LexError.

Definition end_of_line (s : lexst) : eol :=
  match md s with
  | Str _ | StrEsc _ | Bad => LexError
  | Continuation => Joined (mkLex (depth s) Code (last s))
  | Code | Comment =>
      if (0 <? depth s)%nat then Joined (mkLex (depth s) Code (last s))
      else Newline (last s)
  end.

(** An operator that needs a right operand: the grammar has no production in
    which NEWLINE follows one of them. *)
Definition dangling (c : ascii) : bool :=
  existsb (Ascii.eqb c) ["+"; "-"; "/"; "%"; "|"; "&"; "^"; "="; "<"; ">"]%char.

Fixpoint indent (l : string) : nat :=
  match l with
  | String c l' => if Ascii.eqb c " " then S (indent l') else 0
  | EmptyString => 0
  end.

(** A necessary condition for the parser to accept a run of simple statements
    at module level (the whole module is such a run: it has no compound
    statement, so no block is ever open).  [cur] is the lexer state when a
    logical line is under way. *)
Fixpoint accepts_from (cur : option lexst) (lines : list string) : bool :=
  match lines with
  | [] => match cur with None => true | Some _ => false end
  | l :: rest =>
      let fresh := match cur with None => true | Some _ => false end in
      let col0 := if fresh then (indent l =? 0)%nat else true in
      match end_of_line (scan (default init cur) l) with
      | LexError => false
      | Joined s => col0 && accepts_from (Some s) rest
      | Newline None => accepts_from None rest
      | Newline (Some c) => col0 && negb (dangling c) && accepts_from None rest
      end
  end.

Definition accepts (lines : list string) : bool := accepts_from None lines.

(** Lines 49 to 56 of the module. *)
Definition lines_49_56 : list string := [
  "n_channels = 20  # number of physical channels";
  "sfreq = 15.625";
  "channel_names_fnirs = ['HbO %.2d' % i for i in range(1, n_channels + 1)] +";
  "                      ['HbR %.2d' % i for i in range(1, n_channels + 1)]";
  "channel_names = channel_names_fnirs + ['Events']";
  "channel_types = ['hbo'] * n_channels + ['hbr'] * n_channels + ['stim']";
  "info = mne.create_info(ch_names=channel_names, sfreq=sfreq,";
  "                       ch_types=channel_types, montage=None)"
]%string.

(** Lines 88 to 96 of the module. *)
Definition lines_88_96 : list string := [
  "scalings = dict(hbo=10e-6, hbr=10e-6, stim=1)";
  "fig_title = 'fNIRS Raw Bandpass filtered [' + str(l_freq) + ' Hz, ' +";
  "            str(h_freq) + ' Hz]'";
  "plot_colors = dict(hbo='r', hbr='b', stim='k')";
  "raw_data.plot(title=fig_title, events=events, start=0.0, color=plot_colors,";
  "              event_color=color, duration=np.max(raw_data.times),";
  "              scalings=scalings, order='original',";
  "              n_channels=len(channel_names), remove_dc=False, highpass=None,";
  "              lowpass=None)"
]%string.

(** The module is compiled as a whole before any statement runs. *)
Definition module_accepted : bool := accepts lines_49_56 && accepts lines_88_96.

End Lexical.

(** ** Data model *)

(** A 2-D array [channels x samples]. *)
Definition ndarray : Type := list (list Q).

(** The metadata record: channel names, channel types, sampling frequency. *)
Record Info := mkInfo {
  ch_names : list string;
  ch_types : list string;
  info_sfreq : Q
}.

(** The recording: an array bound to its metadata. *)
Record Raw := mkRaw {
  raw_info : Info;
  raw_array : ndarray;
  raw_first_samp : Z
}.

(** One row of the events table: sample index, previous code, new code. *)
Definition event : Type := Z * Z * Z.
Definition Events : Type := list event.
Definition ev_sample (e : event) : Z := e.1.1.
Definition ev_code (e : event) : Z := e.2.

Record Epoch := mkEpoch {
  ep_event : event;
  ep_data : ndarray
}.

Record Epochs := mkEpochs {
  eps_info : Info;
  eps_event_id : gmap string Z;
  eps_tmin : Q;
  eps_tmax : Q;
  eps_items : list Epoch
}.

Record Evoked := mkEvoked {
  evk_info : Info;
  evk_nave : nat;
  evk_data : ndarray
}.

(** A raised Python exception. *)
Record exn := PyExn {
  exn_type : string;
  exn_msg : string
}.

(** The filesystem maps a path to the array serialised in that file. *)
Abbreviation FS := (gmap string ndarray).

(** Keyword arguments of [Raw.plot]. *)
Record PlotArgs := mkPlotArgs {
  pa_title : string;
  pa_events : Events;
  pa_start : Q;
  pa_color : gmap string string;
  pa_event_color : gmap Z string;
  pa_duration : Q;
  pa_scalings : gmap string Q;
  pa_order : string;
  pa_n_channels : option nat;
  pa_remove_dc : bool;
  pa_highpass : option Q;
  pa_lowpass : option Q
}.

(** ** The library interface

    numpy, mne and the builtins, as the module uses them.  A call returns its
    result or the exception it raises. *)

Class Library := {
  np_load : FS -> string -> exn + ndarray;
  np_max : list Q -> exn + Q;
  py_str : Q -> string;
  create_info : list string -> Q -> list string -> option string -> exn + Info;
  RawArray : ndarray -> Info -> Z -> exn + Raw;
  raw_times : Raw -> list Q;
  find_events : Raw -> string -> nat -> exn + Events;
  plot_events : Events -> Q -> Z -> gmap Z string -> gmap string Z -> exn + unit;
  raw_filter : Raw -> Q -> Q -> string -> exn + Raw;
  raw_plot : Raw -> PlotArgs -> exn + unit;
  Epochs_init : Raw -> Events -> gmap string Z -> Q -> Q -> bool ->
                option Q * option Q -> bool -> gmap string Q -> exn + Epochs;
  epochs_plot : Epochs -> string -> exn + unit;
  epochs_getitem : Epochs -> string -> exn + Epochs;
  epochs_average : Epochs -> exn + Evoked;
  evoked_plot : Evoked -> exn + unit
}.

(** ** Execution state, trace and monad *)

(** A library call with the values of its arguments at the time of the
    call; for a method, the receiver's contents come first. *)
Inductive Call :=
| CLoad (path : string)
| CCreateInfo (names : list string) (sf : Q) (types : list string) (montage : option string)
| CRawArray (data : ndarray) (i : Info) (first_samp : Z)
| CFindEvents (r : Raw) (stim_channel : string) (shortest_event : nat)
| CPlotEvents (ev : Events) (sf : Q) (first_samp : Z)
              (col : gmap Z string) (ids : gmap string Z)
| CFilter (r : Raw) (l h : Q) (fir_design : string)
| CNpMax (xs : list Q)
| CRawPlot (r : Raw) (a : PlotArgs)
| CEpochs (r : Raw) (ev : Events) (ids : gmap string Z) (t0 t1 : Q) (proj : bool)
          (baseline : option Q * option Q) (preload : bool) (rej : gmap string Q)
| CEpochsPlot (e : Epochs) (title : string)
| CGetItem (e : Epochs) (key : string)
| CAverage (e : Epochs)
| CEvokedPlot (e : Evoked).

Definition loc := nat.

Record State := mkState {
  st_fs : FS;                            (* the filesystem *)
  st_heap : gmap loc Raw;                (* recordings, by object identity *)
  st_trace : list (Call * option exn)    (* calls made, with what each raised *)
}.

Definition M (A : Type) : Type := State -> State * (exn + A).

#[export] Instance M_ret : MRet M := λ A x s, (s, inr x).
#[export] Instance M_bind : MBind M := λ A B f m s,
  match m s with
  | (s', inl e) => (s', inl e)
  | (s', inr x) => f x s'
  end.

Definition raised {A} (r : exn + A) : option exn :=
  match r with inl e => Some e | inr _ => None end.

(** Record a call and deliver its outcome. *)
Definition call {A} (c : Call) (r : exn + A) : M A := λ s,
  (mkState (st_fs s) (st_heap s) (st_trace s ++ [(c, raised r)]), r).

(** A new object on the heap. *)
Definition alloc (r : Raw) : M loc := λ s,
  let l := fresh (dom (st_heap s)) in
  (mkState (st_fs s) (<[l := r]> (st_heap s)) (st_trace s), inr l).

Definition deref (l : loc) : M Raw := λ s,
  match st_heap s !! l with
  | Some r => (s, inr r)
  | None => (s, inl (PyExn "ReferenceError" "dangling object"))
  end.

(** In-place update of the object at [l]. *)
Definition assign (l : loc) (r : Raw) : M unit := λ s,
  (mkState (st_fs s) (<[l := r]> (st_heap s)) (st_trace s), inr tt).

(** ** Constants of the module *)

Open Scope Q_scope.

Definition range (a b : nat) : list nat := seq a (b - a).

(** ['%.2d' % i]: decimal, at least two digits. *)
Definition fmt_2d (i : nat) : string :=
  let s := NilEmpty.string_of_uint (Nat.to_uint i) in
  if (String.length s <? 2)%nat then ("0" +:+ s)%string else s.

Definition n_channels : nat := 20.
Definition sfreq : Q := 15.625.
Definition channel_names_fnirs : list string :=
  map (λ i, "HbO " +:+ fmt_2d i)%string (range 1 (n_channels + 1)) ++
  map (λ i, "HbR " +:+ fmt_2d i)%string (range 1 (n_channels + 1)).
Definition channel_names : list string := channel_names_fnirs ++ ["Events"%string].
Definition channel_types : list string :=
  replicate n_channels "hbo"%string ++ replicate n_channels "hbr"%string ++ ["stim"%string].

Definition event_id : gmap string Z :=
  list_to_map [("ISI", 1); ("Biological", 2); ("Rotation", 4); ("Scrambled", 8);
               ("Pause", 16)]%string%Z.
Definition color : gmap Z string :=
  list_to_map [(1, "black"); (2, "green"); (4, "magenta"); (8, "cyan");
               (16, "yellow")]%string%Z.

Definition l_freq : Q := 0.01.
Definition h_freq : Q := 2.

Definition scalings : gmap string Q :=
  list_to_map [("hbo", 10e-6); ("hbr", 10e-6); ("stim", 1)]%string.
Definition plot_colors : gmap string string :=
  list_to_map [("hbo", "r"); ("hbr", "b"); ("stim", "k")]%string.

Definition tmin : Q := -2.
Definition tmax : Q := 10.
Definition reject : gmap string Q :=
  list_to_map [("hbo", 1.5e-5); ("hbr", 1.5e-5)]%string.

(** Lines 51 to 54 for any number of physical channels: the names and the
    types as functions of [n_channels]. *)
Definition names_for (n : nat) : list string :=
  (map (λ i, "HbO " +:+ fmt_2d i)%string (range 1 (n + 1)) ++
   map (λ i, "HbR " +:+ fmt_2d i)%string (range 1 (n + 1))) ++ ["Events"%string].
Definition types_for (n : nat) : list string :=
  replicate n "hbo"%string ++ replicate n "hbr"%string ++ ["stim"%string].

(** ** The module body *)

(** The names left bound in the module's namespace when it has run. *)
Record Globals := mkGlobals {
  g_raw_ndarray : ndarray;
  g_info : Info;
  g_raw_data : loc;
  g_events : Events;
  g_fig_title : string;
  g_epochs : Epochs;
  g_evoked_1 : Evoked
}.

Section Script.
Context `{L : Library}.

(** Library calls as the script makes them.  Methods of the recording read
    the object behind the reference; [Raw.filter] writes its result back to the
    same object and returns the reference. *)

Definition numpy_load (path : string) : M ndarray := λ s,
  call (CLoad path) (np_load (st_fs s) path) s.

Definition mne_create_info names sf types montage : M Info :=
  call (CCreateInfo names sf types montage) (create_info names sf types montage).

Definition mne_io_RawArray (data : ndarray) (i : Info) (first_samp : Z) : M loc :=
  r ← call (CRawArray data i first_samp) (RawArray data i first_samp);
  alloc r.

Definition mne_find_events (raw : loc) (stim_channel : string) (shortest : nat)
  : M Events :=
  r ← deref raw;
  call (CFindEvents r stim_channel shortest) (find_events r stim_channel shortest).

Definition mne_viz_plot_events ev sf first_samp col ids : M unit :=
  call (CPlotEvents ev sf first_samp col ids) (plot_events ev sf first_samp col ids).

Definition Raw_filter (self : loc) (l h : Q) (fir_design : string) : M loc :=
  r ← deref self;
  r' ← call (CFilter r l h fir_design) (raw_filter r l h fir_design);
  _ ← assign self r';
  mret self.

Definition numpy_max (xs : list Q) : M Q := call (CNpMax xs) (np_max xs).

Definition Raw_plot (self : loc) (a : PlotArgs) : M unit :=
  r ← deref self;
  call (CRawPlot r a) (raw_plot r a).

Definition mne_Epochs (raw : loc) ev ids t0 t1 proj baseline preload rej : M Epochs :=
  r ← deref raw;
  call (CEpochs r ev ids t0 t1 proj baseline preload rej)
       (Epochs_init r ev ids t0 t1 proj baseline preload rej).

Definition Epochs_plot (e : Epochs) (title : string) : M unit :=
  call (CEpochsPlot e title) (epochs_plot e title).

Definition Epochs_getitem (e : Epochs) (key : string) : M Epochs :=
  call (CGetItem e key) (epochs_getitem e key).

Definition Epochs_average (e : Epochs) : M Evoked := call (CAverage e) (epochs_average e).

Definition Evoked_plot (e : Evoked) : M unit := call (CEvokedPlot e) (evoked_plot e).

(** Lines 25 to 124, statement by statement.  The right-hand sides of lines
    51-52 and 89-90 are taken as the single expressions they spell out. *)
Definition script : M Globals :=
  raw_ndarray ← numpy_load "/home/matteo/raw_ndarray.npy";
  info ← mne_create_info channel_names sfreq channel_types None;
  raw_data ← mne_io_RawArray raw_ndarray info 0;
  events ← mne_find_events raw_data "Events" 1;
  r ← deref raw_data;
  _ ← mne_viz_plot_events events (info_sfreq (raw_info r)) (raw_first_samp r)
        color event_id;
  _ ← Raw_filter raw_data l_freq h_freq "firwin";
  let fig_title := ("fNIRS Raw Bandpass filtered [" +:+ py_str l_freq +:+ " Hz, " +:+
                    py_str h_freq +:+ " Hz]")%string in
  r ← deref raw_data;
  duration ← numpy_max (raw_times r);
  _ ← Raw_plot raw_data
        (mkPlotArgs fig_title events 0.0 plot_colors color duration scalings
           "original" (Some (length channel_names)) false None None);
  let fig_title := ("fNIRS raw bandpass filtered " +:+ py_str l_freq +:+ " Hz - " +:+
                    py_str h_freq +:+ " Hz")%string in
  _ ← Raw_plot raw_data
        (mkPlotArgs fig_title events 0.0 plot_colors color 36 scalings
           "original" None false None None);
  epochs ← mne_Epochs raw_data events event_id tmin tmax true (None, Some 0) true
             reject;
  let fig_title := "fNIRS Epochs"%string in
  _ ← Epochs_plot epochs fig_title;
  biological ← Epochs_getitem epochs "Biological";
  evoked_1 ← Epochs_average biological;
  _ ← Evoked_plot evoked_1;
  mret (mkGlobals raw_ndarray info raw_data events fig_title epochs evoked_1).

(** A run of the module body on a filesystem: nothing allocated, nothing
    called yet. *)
Definition run (fs : FS) : State * (exn + Globals) := script (mkState fs ∅ []).

(** The module as a whole: it is compiled first, and only then executed. *)
Definition run_module (fs : FS) : State * (exn + Globals) :=
  if Lexical.module_accepted then run fs
  else (mkState fs ∅ [], inl (PyExn "SyntaxError" "invalid syntax")).

End Script.

(** ** The values of a complete run *)

Definition path : string := "/home/matteo/raw_ndarray.npy".

Section Complete.
Context `{L : Library}.

(** The values a complete run computes on the way. *)
Record Values := mkValues {
  v_array : ndarray;      (* raw_ndarray *)
  v_info : Info;          (* info *)
  v_raw : Raw;            (* raw_data as constructed *)
  v_events : Events;      (* events *)
  v_filtered : Raw;       (* raw_data after line 80 *)
  v_duration : Q;         (* np.max(raw_data.times) *)
  v_epochs : Epochs;      (* epochs *)
  v_biological : Epochs;  (* epochs['Biological'] *)
  v_evoked : Evoked       (* evoked_1 *)
}.

Definition title_92 : string :=
  "fNIRS Raw Bandpass filtered [" +:+ py_str l_freq +:+ " Hz, " +:+ py_str h_freq +:+ " Hz]".
Definition title_103 : string :=
  "fNIRS raw bandpass filtered " +:+ py_str l_freq +:+ " Hz - " +:+ py_str h_freq +:+ " Hz".

Definition args_92 (v : Values) : PlotArgs :=
  mkPlotArgs title_92 (v_events v) 0.0 plot_colors color (v_duration v) scalings
    "original" (Some (length channel_names)) false None None.
Definition args_103 (v : Values) : PlotArgs :=
  mkPlotArgs title_103 (v_events v) 0.0 plot_colors color 36 scalings
    "original" None false None None.

(** The calls of a complete run, with their arguments. *)
Definition calls_of (v : Values) : list Call := [
  CLoad path;
  CCreateInfo channel_names sfreq channel_types None;
  CRawArray (v_array v) (v_info v) 0;
  CFindEvents (v_raw v) "Events" 1;
  CPlotEvents (v_events v) (info_sfreq (raw_info (v_raw v))) (raw_first_samp (v_raw v))
    color event_id;
  CFilter (v_raw v) l_freq h_freq "firwin";
  CNpMax (raw_times (v_filtered v));
  CRawPlot (v_filtered v) (args_92 v);
  CRawPlot (v_filtered v) (args_103 v);
  CEpochs (v_filtered v) (v_events v) event_id tmin tmax true (None, Some 0) true reject;
  CEpochsPlot (v_epochs v) "fNIRS Epochs";
  CGetItem (v_epochs v) "Biological";
  CAverage (v_biological v);
  CEvokedPlot (v_evoked v)
].

(** What the library returned to a complete run. *)
Record returns (fs : FS) (v : Values) : Prop := mkReturns {
  ret_load : np_load fs path = inr (v_array v);
  ret_info : create_info channel_names sfreq channel_types None = inr (v_info v);
  ret_raw : RawArray (v_array v) (v_info v) 0 = inr (v_raw v);
  ret_events : find_events (v_raw v) "Events" 1 = inr (v_events v);
  ret_filter : raw_filter (v_raw v) l_freq h_freq "firwin" = inr (v_filtered v);
  ret_max : np_max (raw_times (v_filtered v)) = inr (v_duration v);
  ret_epochs : Epochs_init (v_filtered v) (v_events v) event_id tmin tmax true
                 (None, Some 0) true reject = inr (v_epochs v);
  ret_getitem : epochs_getitem (v_epochs v) "Biological" = inr (v_biological v);
  ret_average : epochs_average (v_biological v) = inr (v_evoked v)
}.

End Complete.

(** ** Reading a trace *)

(** The operations of the module, and where each occurs in it. *)
Inductive Op :=
| OLoad | OCreateInfo | ORawArray | OFindEvents | OPlotEvents | OFilter | ONpMax
| ORawPlot | OEpochs | OEpochsPlot | OGetItem | OAverage | OEvokedPlot.

#[export] Instance Op_eq_dec : EqDecision Op.
Proof. solve_decision. Defined.

Definition op_of (c : Call) : Op :=
  match c with
  | CLoad _ => OLoad
  | CCreateInfo _ _ _ _ => OCreateInfo
  | CRawArray _ _ _ => ORawArray
  | CFindEvents _ _ _ => OFindEvents
  | CPlotEvents _ _ _ _ _ => OPlotEvents
  | CFilter _ _ _ _ => OFilter
  | CNpMax _ => ONpMax
  | CRawPlot _ _ => ORawPlot
  | CEpochs _ _ _ _ _ _ _ _ _ => OEpochs
  | CEpochsPlot _ _ => OEpochsPlot
  | CGetItem _ _ => OGetItem
  | CAverage _ => OAverage
  | CEvokedPlot _ => OEvokedPlot
  end.

Definition ops (t : list (Call * option exn)) : list Op := map (λ x, op_of x.1) t.

(** Lines 25, 55, 60, 68, 72, 80, 93, 92, 103, 115, 118, 123, 123, 124. *)
Definition source_order : list Op :=
  [OLoad; OCreateInfo; ORawArray; OFindEvents; OPlotEvents; OFilter; ONpMax;
   ORawPlot; ORawPlot; OEpochs; OEpochsPlot; OGetItem; OAverage; OEvokedPlot].

(** The steps the specification names. *)
Inductive Step :=
| SLoad | SMetadata | SRecording | SDetect | SFilter | SPlot | SEpoch | SAverage.

#[export] Instance Step_eq_dec : EqDecision Step.
Proof. solve_decision. Defined.

(** [np.max] and the selection of one condition are not steps of their
    own. *)
Definition step_of (o : Op) : option Step :=
  match o with
  | OLoad => Some SLoad
  | OCreateInfo => Some SMetadata
  | ORawArray => Some SRecording
  | OFindEvents => Some SDetect
  | OFilter => Some SFilter
  | OPlotEvents | ORawPlot | OEpochsPlot | OEvokedPlot => Some SPlot
  | OEpochs => Some SEpoch
  | OAverage => Some SAverage
  | ONpMax | OGetItem => None
  end.

Definition steps (t : list (Call * option exn)) : list Step := omap step_of (ops t).

(** load, metadata, recording, detect events, filter, plot, epoch, average,
    plot. *)
Definition spec_order : list Step :=
  [SLoad; SMetadata; SRecording; SDetect; SFilter; SPlot; SEpoch; SAverage; SPlot].

(** [is_subseq l k]: [l] is [k] with some elements left out, order kept. *)
Fixpoint is_subseq {A} `{EqDecision A} (l k : list A) : bool :=
  match l, k with
  | [], _ => true
  | _ :: _, [] => false
  | x :: l', y :: k' => if decide (x = y) then is_subseq l' k' else is_subseq l k'
  end.

(** What a call does to the filesystem.  Only [np.load] is handed a path. *)
Inductive FsAccess :=
| FsRead (path : string)
| FsWrite (path : string).

Definition fs_access (c : Call) : option FsAccess :=
  match c with
  | CLoad p => Some (FsRead p)
  | _ => None
  end.

Definition fs_accesses (t : list (Call * option exn)) : list FsAccess :=
  omap (λ x, fs_access x.1) t.

(** ** Documented behaviour of the library *)

Definition Qmaxb (x y : Q) : Q := if Qle_bool x y then y else x.
Definition Qminb (x y : Q) : Q := if Qle_bool x y then x else y.

(** Peak-to-peak amplitude of one channel of an epoch. *)
Definition p2p (row : list Q) : Q :=
  match row with
  | [] => 0
  | x :: xs => fold_right Qmaxb x xs - fold_right Qminb x xs
  end.

(** [reject]: an epoch is kept when every channel whose type has a threshold
    stays within it. *)
Definition is_good (types : list string) (rej : gmap string Q) (data : ndarray) : bool :=
  forallb (λ tr : string * list Q,
             match rej !! tr.1 with
             | Some th => Qle_bool (p2p tr.2) th
             | None => true
             end)
          (zip types data).

Definition madd (a b : ndarray) : ndarray := zip_with (zip_with Qplus) a b.
Definition mscale (c : Q) (a : ndarray) : ndarray := map (map (Qmult c)) a.

(** Pointwise mean of arrays of one shape. *)
Definition mean_matrix (ms : list ndarray) : ndarray :=
  match ms with
  | [] => []
  | m :: rest => mscale (1 / inject_Z (Z.of_nat (length ms))) (fold_left madd rest m)
  end.

Definition matrix_eq (a b : ndarray) : Prop := Forall2 (Forall2 Qeq) a b.

(** The row of the channel called [name]. *)
Definition channel (r : Raw) (name : string) : option (list Q) :=
  ix ← list_find (λ n, n = name) (ch_names (raw_info r));
  raw_array r !! ix.1.

Definition has_code (ids : gmap string Z) (e : event) : Prop :=
  ∃ k, ids !! k = Some (ev_code e).

(** [k] is an integer nearest to [q]. *)
Definition nearest (k : Z) (q : Q) : Prop :=
  (q - 1 / 2 <= inject_Z k)%Q ∧ (inject_Z k <= q + 1 / 2)%Q.

(** The samples from [start] on, [len] of them, of every channel. *)
Definition window (start : Z) (len : nat) (a : ndarray) : ndarray :=
  map (λ row, take len (drop (Z.to_nat start) row)) a.

(** Every channel lowered by a constant of its own, as a baseline correction
    does. *)
Definition lowered (offsets : list Q) (a : ndarray) : ndarray :=
  zip_with (λ (c : Q) row, map (λ x, x - c)%Q row) offsets a.

Section Contracts.
Context `{L : Library}.

(** [create_info] returns the record of what it was given. *)
Definition create_info_contract : Prop :=
  ∀ names sf types montage i,
    create_info names sf types montage = inr i → i = mkInfo names types sf.

(** [RawArray] binds the array to the metadata. *)
Definition RawArray_contract : Prop :=
  ∀ d i f r, RawArray d i f = inr r → r = mkRaw i d f.

(** [find_events] reads the stimulus channel it is given, and nothing else of
    the data. *)
Definition find_events_contract : Prop :=
  ∀ r1 r2 ch shortest,
    channel r1 ch = channel r2 ch →
    raw_first_samp r1 = raw_first_samp r2 →
    find_events r1 ch shortest = find_events r2 ch shortest.

(** [Epochs]: one window per kept event whose code is in [event_id], all of
    one length, none beyond a [reject] threshold. *)
Definition Epochs_contract : Prop :=
  ∀ r ev ids t0 t1 proj baseline preload rej eps,
    Epochs_init r ev ids t0 t1 proj baseline preload rej = inr eps →
    eps_info eps = raw_info r ∧ eps_event_id eps = ids ∧
    eps_tmin eps = t0 ∧ eps_tmax eps = t1 ∧
    ∃ n, Forall (λ e, ep_event e ∈ ev ∧ has_code ids (ep_event e) ∧
                      Forall (λ row, length row = n) (ep_data e) ∧
                      is_good (ch_types (raw_info r)) rej (ep_data e) = true)
                (eps_items eps).

(** [epochs[key]]: the epochs whose event code is the one [key] names. *)
Definition getitem_contract : Prop :=
  ∀ eps key sel,
    epochs_getitem eps key = inr sel →
    ∃ code, eps_event_id eps !! key = Some code ∧
            eps_items sel = filter (λ e, ev_code (ep_event e) = code) (eps_items eps).

(** [average]: the pointwise mean over the epochs of the collection. *)
Definition average_contract : Prop :=
  ∀ sel evk,
    epochs_average sel = inr evk →
    evk_nave evk = length (eps_items sel) ∧
    matrix_eq (evk_data evk) (mean_matrix (map ep_data (eps_items sel))).

(** [Epochs] cuts its windows out of the recording: with [k0] and [k1] the
    sample offsets nearest to [t0] and [t1] seconds, the data of an epoch are
    the samples [k0] to [k1] around its event of every channel, each channel
    lowered by a constant (the baseline). *)
Definition Epochs_window_contract : Prop :=
  ∀ r ev ids t0 t1 proj baseline preload rej eps,
    Epochs_init r ev ids t0 t1 proj baseline preload rej = inr eps →
    ∃ k0 k1 : Z,
      nearest k0 (t0 * info_sfreq (raw_info r)) ∧
      nearest k1 (t1 * info_sfreq (raw_info r)) ∧
      Forall (λ e,
                (0 ≤ ev_sample (ep_event e) + k0 - raw_first_samp r)%Z ∧
                Forall (λ row : list Q,
                          (Z.to_nat (ev_sample (ep_event e) + k0 - raw_first_samp r)
                           + Z.to_nat (k1 - k0 + 1) ≤ length row)%nat)
                       (raw_array r) ∧
                ∃ offsets,
                  length offsets = length (raw_array r) ∧
                  matrix_eq (ep_data e)
                    (lowered offsets
                       (window (ev_sample (ep_event e) + k0 - raw_first_samp r)
                          (Z.to_nat (k1 - k0 + 1)) (raw_array r))))
             (eps_items eps).

(** [filter] changes sample values only: metadata and first sample stay. *)
Definition filter_contract : Prop :=
  ∀ r l h fir_design r',
    raw_filter r l h fir_design = inr r' →
    raw_info r' = raw_info r ∧ raw_first_samp r' = raw_first_samp r.

End Contracts.

(** ** A small executable library

    Enough of numpy and mne to run the module body on data: step detection on
    the stimulus channel, a two-point smoother in place of the FIR filter,
    windowing with peak-to-peak rejection, selection and averaging.  Plots
    draw nothing. *)

Module Toy.

Definition load (fs : FS) (path : string) : exn + ndarray :=
  match fs !! path with
  | Some a => inr a
  | None => inl (PyExn "FileNotFoundError" path)
  end.

Definition max (xs : list Q) : exn + Q :=
  match xs with
  | [] => inl (PyExn "ValueError" "zero-size array to reduction operation maximum")
  | x :: r => inr (fold_right Qmaxb x r)
  end.

Definition str (q : Q) : string :=
  let n := NilZero.string_of_int (Z.to_int (Qnum (Qred q))) in
  if (Qden (Qred q) =? 1)%positive then n
  else (n +:+ "/" +:+ NilZero.string_of_uint (Pos.to_uint (Qden (Qred q))))%string.

Definition info names (sf : Q) types (montage : option string) : exn + Info :=
  if (length names =? length types)%nat then inr (mkInfo names types sf)
  else inl (PyExn "ValueError" "ch_names and ch_types differ in length").

Definition raw_array_of (d : ndarray) (i : Info) (first_samp : Z) : exn + Raw :=
  if (length d =? length (ch_names i))%nat then inr (mkRaw i d first_samp)
  else inl (PyExn "ValueError" "data and info differ in number of channels").

Definition n_times (r : Raw) : nat := length (default [] (head (raw_array r))).

Definition times (r : Raw) : list Q :=
  map (λ k, inject_Z (Z.of_nat k) / info_sfreq (raw_info r)) (seq 0 (n_times r)).

(** Onsets: the samples where the code changes to a non-zero value. *)
Fixpoint detect (i prev : Z) (row : list Q) : Events :=
  match row with
  | [] => []
  | x :: rest =>
      let c := Qfloor x in
      (if bool_decide (c ≠ prev ∧ c ≠ 0%Z) then [(i, prev, c)] else []) ++
      detect (i + 1) c rest
  end.

Definition events_of (r : Raw) (stim_channel : string) (shortest : nat) : exn + Events :=
  match channel r stim_channel with
  | Some row => inr (detect (raw_first_samp r) 0 row)
  | None => inl (PyExn "ValueError" stim_channel)
  end.

Fixpoint smooth (prev : Q) (row : list Q) : list Q :=
  match row with
  | [] => []
  | x :: rest => Qred ((prev + x) / 2) :: smooth x rest
  end.

Definition filtered (r : Raw) (l h : Q) (fir_design : string) : exn + Raw :=
  if Qle_bool h l then inl (PyExn "ValueError" "l_freq must be below h_freq")
  else inr (mkRaw (raw_info r)
              (zip_with (λ (ty : string) row,
                           if bool_decide (ty = "stim") then row
                           else smooth (default 0 (head row)) row)
                        (ch_types (raw_info r)) (raw_array r))
              (raw_first_samp r)).

(** Sample offset of a time, rounded half up. *)
Definition offset (sf t : Q) : Z := Qfloor (t * sf + 1 / 2).

Definition slice (a b : Z) (row : list Q) : list Q :=
  take (Z.to_nat (b - a + 1)) (drop (Z.to_nat a) row).

Definition cut (r : Raw) (t0 t1 : Q) (e : event) : option Epoch :=
  let sf := info_sfreq (raw_info r) in
  let a := (ev_sample e + offset sf t0 - raw_first_samp r)%Z in
  let b := (ev_sample e + offset sf t1 - raw_first_samp r)%Z in
  if bool_decide (0 ≤ a ∧ a ≤ b ∧ b < Z.of_nat (n_times r))%Z
  then Some (mkEpoch e (map (slice a b) (raw_array r)))
  else None.

Definition wanted (ids : gmap string Z) (e : event) : bool :=
  existsb (λ kv : string * Z, (kv.2 =? ev_code e)%Z) (map_to_list ids).

Definition rectangular (r : Raw) : bool :=
  forallb (λ row : list Q, (length row =? n_times r)%nat) (raw_array r).

Definition epochs_of (r : Raw) (ev : Events) (ids : gmap string Z) (t0 t1 : Q)
    (proj : bool) (baseline : option Q * option Q) (preload : bool)
    (rej : gmap string Q) : exn + Epochs :=
  if rectangular r then
    inr (mkEpochs (raw_info r) ids t0 t1
           (List.filter (λ e, is_good (ch_types (raw_info r)) rej (ep_data e))
              (omap (cut r t0 t1) (List.filter (wanted ids) ev))))
  else inl (PyExn "ValueError" "data is not a 2-D array").

Definition select (eps : Epochs) (key : string) : exn + Epochs :=
  match eps_event_id eps !! key with
  | Some code =>
      inr (mkEpochs (eps_info eps) (eps_event_id eps) (eps_tmin eps) (eps_tmax eps)
             (filter (λ e, ev_code (ep_event e) = code) (eps_items eps)))
  | None => inl (PyExn "KeyError" key)
  end.

Definition mean (sel : Epochs) : exn + Evoked :=
  match eps_items sel with
  | [] => inl (PyExn "ValueError" "no epochs to average")
  | items =>
      inr (mkEvoked (eps_info sel) (length items)
             (map (map Qred) (mean_matrix (map ep_data items))))
  end.

#[local] Instance lib : Library := {|
  np_load := load;
  np_max := max;
  py_str := str;
  create_info := info;
  RawArray := raw_array_of;
  raw_times := times;
  find_events := events_of;
  plot_events := λ _ _ _ _ _, inr tt;
  raw_filter := filtered;
  raw_plot := λ _ _, inr tt;
  Epochs_init := epochs_of;
  epochs_plot := λ _ _, inr tt;
  epochs_getitem := select;
  epochs_average := mean;
  evoked_plot := λ _, inr tt
|}.

(** A recording of 240 samples: 20 HbO and 20 HbR rows of a few micromolar,
    an optional spike on the fourth HbO channel, and four stimulus blocks
    with onsets at samples 40, 52, 64 and 76 (codes 2, 4, 2 and 8). *)
Definition n_samples : nat := 240.

Definition hbo_row (spike : option nat) (i : nat) : list Q :=
  map (λ j, if bool_decide (spike = Some j) && (i =? 3)%nat then 1e-4
            else inject_Z (Z.of_nat ((i + j) mod 7)) * 1e-6)
      (seq 0 n_samples).

Definition hbr_row (i : nat) : list Q :=
  map (λ j, - (inject_Z (Z.of_nat ((i + 2 * j) mod 5)) * 1e-6)) (seq 0 n_samples).

Definition stim_row : list Q :=
  map (λ j, if (40 <=? j)%nat && (j <? 52)%nat then 2
            else if (52 <=? j)%nat && (j <? 64)%nat then 4
            else if (64 <=? j)%nat && (j <? 76)%nat then 2
            else if (76 <=? j)%nat && (j <? 90)%nat then 8
            else 0)
      (seq 0 n_samples).

Definition recording (spike : option nat) : ndarray :=
  map (hbo_row spike) (seq 0 20) ++ map hbr_row (seq 0 20) ++ [stim_row].

Definition on_disk (a : ndarray) : FS := {[ "/home/matteo/raw_ndarray.npy"%string := a ]}.

(** A spike late in the recording: only the last window holds it. *)
Definition disk : FS := on_disk (recording (Some 228%nat)).

(** The same stimulus channel under different haemoglobin data. *)
Definition disk' : FS := on_disk (recording None).

(** A spike that every window holds. *)
Definition disk_spiky : FS := on_disk (recording (Some 120%nat)).

(** The module body run on these disks. *)
Definition no_globals : Globals :=
  mkGlobals [] (mkInfo [] [] 0) 0%nat [] "" (mkEpochs (mkInfo [] [] 0) ∅ 0 0 [])
    (mkEvoked (mkInfo [] [] 0) 0 []).

Definition globals_of (res : State * (exn + Globals)) : Globals :=
  match res.2 with
  | inr g => g
  | inl _ => no_globals
  end.

Definition completed (res : State * (exn + Globals)) : bool :=
  match res.2 with
  | inr _ => true
  | inl _ => false
  end.

Definition final : State := (run disk).1.
Definition globals : Globals := globals_of (run disk).

Definition final' : State := (run disk').1.
Definition globals' : Globals := globals_of (run disk').


End Toy.

(** ** Stepping through the module body *)

Section Runs.
Context `{L : Library}.

Lemma bind_eq {A B} (m : M A) (f : A → M B) s :
  (m ≫= f) s =
  match m s with
  | (s', inl e) => (s', inl e)
  | (s', inr x) => f x s'
  end.
Proof. reflexivity. Qed.

Lemma call_eq {A} c (r : exn + A) s :
  call c r s = (mkState (st_fs s) (st_heap s) (st_trace s ++ [(c, raised r)]), r).
Proof. reflexivity. Qed.

(** The first object allocated gets identity 0. *)
Lemma alloc_empty r fs t :
  alloc r (mkState fs ∅ t) = (mkState fs {[0%nat := r]} t, inr 0%nat).
Proof. reflexivity. Qed.

Lemma deref_singleton r fs t :
  deref 0%nat (mkState fs {[0%nat := r]} t) = (mkState fs {[0%nat := r]} t, inr r).
Proof. unfold deref. cbn [st_heap]. by rewrite lookup_singleton_eq. Qed.

(** Assignment replaces the contents of the object; it makes no new one. *)
Lemma assign_singleton r r' fs t :
  assign 0%nat r' (mkState fs {[0%nat := r]} t) =
  (mkState fs {[0%nat := r']} t, inr tt).
Proof. unfold assign. cbn [st_heap st_fs st_trace]. by rewrite insert_singleton_eq. Qed.

#[local] Opaque channel_names channel_types event_id color reject scalings plot_colors
  sfreq l_freq h_freq tmin tmax.

Ltac exec :=
  repeat first
    [ rewrite bind_eq
    | rewrite call_eq
    | rewrite alloc_empty
    | rewrite deref_singleton
    | rewrite assign_singleton
    | progress cbn [st_fs st_heap st_trace raised app mret M_ret fst snd] ].

Ltac unfold_script :=
  unfold run, script, numpy_load, mne_create_info, mne_io_RawArray, mne_find_events,
    mne_viz_plot_events, Raw_filter, numpy_max, Raw_plot, mne_Epochs, Epochs_plot,
    Epochs_getitem, Epochs_average, Evoked_plot.

(** Take the next library call; [tac] closes the case in which it raises. *)
Ltac next_call tac :=
  exec;
  lazymatch goal with
  | |- context [match ?r with inl _ => _ | inr _ => _ end] =>
      let E := fresh "E" in destruct r as [?|?] eqn:E; [exec; tac | ]
  end.

(** A complete run made the fourteen calls, each on the values returned
    before; the one recording object holds the filtered data. *)
Lemma run_complete fs s g :
  run fs = (s, inr g) →
  ∃ v, returns fs v ∧
       s = mkState fs {[0%nat := v_filtered v]} (map (λ c, (c, None)) (calls_of v)) ∧
       g = mkGlobals (v_array v) (v_info v) 0%nat (v_events v) "fNIRS Epochs"
             (v_epochs v) (v_evoked v).
Proof.
  unfold_script.
  do 14 (next_call ltac:(intros ?; discriminate)).
  exec. intros [= <- <-].
  repeat match goal with u : unit |- _ => destruct u end.
  eexists (mkValues _ _ _ _ _ _ _ _ _). split; [ by constructor | done ].
Qed.

Ltac raised_last Hin :=
  repeat (apply elem_of_cons in Hin as [Hin|Hin];
          [ first [ discriminate Hin | injection Hin as -> ->; by split ] | ]);
  by apply elem_of_nil in Hin.

Ltac close_case :=
  intros [= <- <-]; cbn [fst snd st_fs st_trace];
  split_and!;
  [ reflexivity
  | by eexists
  | reflexivity
  | let Hin := fresh "Hin" in intros ? ? Hin; raised_last Hin
  | first [ by eexists | reflexivity ] ].

(** Every run, complete or not: the filesystem is left as it was, the calls
    follow the source, the one file access is the read of line 25, and a
    call that raises is the last one, its exception the outcome. *)
Lemma run_discipline fs s r :
  run fs = (s, r) →
  st_fs s = fs ∧
  ops (st_trace s) `prefix_of` source_order ∧
  fs_accesses (st_trace s) = [FsRead path] ∧
  (∀ c e, (c, Some e) ∈ st_trace s → r = inl e ∧ last (st_trace s) = Some (c, Some e)) ∧
  match r with
  | inl e => ∃ c, last (st_trace s) = Some (c, Some e)
  | inr _ => ops (st_trace s) = source_order
  end.
Proof.
  unfold_script.
  do 14 (next_call close_case).
  exec. close_case.
Qed.


(** Whenever the events plot is called, in a complete run or not, it is given
    the table [find_events] returned and the sampling frequency and first
    sample of the recording as constructed. *)
Lemma run_plot_events fs s r c o :
  run fs = (s, r) →
  (c, o) ∈ st_trace s → op_of c = OPlotEvents →
  ∃ arr info raw ev,
    np_load fs path = inr arr ∧
    create_info channel_names sfreq channel_types None = inr info ∧
    RawArray arr info 0 = inr raw ∧
    find_events raw "Events" 1 = inr ev ∧
    c = CPlotEvents ev (info_sfreq (raw_info raw)) (raw_first_samp raw) color event_id.
Proof.
  unfold_script.
  do 14 (next_call ltac:(
    let Hin := fresh "Hin" in let Hop := fresh "Hop" in
    intros [= <- <-] Hin Hop; cbn [st_trace] in Hin;
    repeat (apply elem_of_cons in Hin as [[= -> ->] | Hin];
            [ first [ discriminate Hop | by eauto 10 ] | ]);
    by apply elem_of_nil in Hin)).
  exec. intros [= <- <-] Hin Hop. cbn [st_trace] in Hin.
  repeat (apply elem_of_cons in Hin as [[= -> ->] | Hin];
          [ first [ discriminate Hop | by eauto 10 ] | ]).
  by apply elem_of_nil in Hin.
Qed.

(** Whenever the recording is plotted, in a complete run or not, it is the
    result of the filter that is plotted, with the events found before the
    filter. *)
Lemma run_raw_plot fs s r c o :
  run fs = (s, r) →
  (c, o) ∈ st_trace s → op_of c = ORawPlot →
  ∃ raw0 ev raw1 duration,
    find_events raw0 "Events" 1 = inr ev ∧
    raw_filter raw0 l_freq h_freq "firwin" = inr raw1 ∧
    np_max (raw_times raw1) = inr duration ∧
    (c = CRawPlot raw1
           (mkPlotArgs title_92 ev 0.0 plot_colors color duration scalings
              "original" (Some (length channel_names)) false None None) ∨
     c = CRawPlot raw1
           (mkPlotArgs title_103 ev 0.0 plot_colors color 36 scalings
              "original" None false None None)).
Proof.
  unfold_script.
  do 14 (next_call ltac:(
    let Hin := fresh "Hin" in let Hop := fresh "Hop" in
    intros [= <- <-] Hin Hop; cbn [st_trace] in Hin;
    repeat (apply elem_of_cons in Hin as [[= -> ->] | Hin];
            [ first [ discriminate Hop | by eauto 12 ] | ]);
    by apply elem_of_nil in Hin)).
  exec. intros [= <- <-] Hin Hop. cbn [st_trace] in Hin.
  repeat (apply elem_of_cons in Hin as [[= -> ->] | Hin];
          [ first [ discriminate Hop | by eauto 12 ] | ]).
  by apply elem_of_nil in Hin.
Qed.

End Runs.

(** ** Facts about the documented behaviour *)

Lemma is_good_cons ty types rej row data :
  is_good (ty :: types) rej (row :: data) =
  match rej !! ty with
  | Some th => Qle_bool (p2p row) th
  | None => true
  end && is_good types rej data.
Proof. reflexivity. Qed.

(** A kept epoch: every channel whose type has a threshold is within it. *)
Lemma is_good_within types rej data :
  is_good types rej data = true →
  ∀ (i : nat) ty row th,
    types !! i = Some ty → data !! i = Some row → rej !! ty = Some th →
    (p2p row <= th)%Q.
Proof.
  revert data. induction types as [|ty0 types IH]; intros [|row0 data] Hg i ty row th;
    try (by intros [=]); try (by intros _ [=]).
  rewrite is_good_cons in Hg. apply andb_true_iff in Hg as [H0 Hg].
  destruct i as [|i]; cbn.
  - intros [= ->] [= ->] Hth. rewrite Hth in H0. by apply Qle_bool_iff.
  - by apply IH.
Qed.


Lemma reject_dom : dom reject = {["hbo"; "hbr"]}.
Proof. unfold reject. cbn [list_to_map foldr]. rewrite !dom_insert_L. set_solver. Qed.



Lemma matrix_eq_rows (P : nat → Prop) (a b : ndarray) :
  matrix_eq a b → Forall (λ row, P (length row)) b → Forall (λ row, P (length row)) a.
Proof.
  induction 1 as [|row row' a b Hrow _ IH]; [ done | ].
  intros [Hb Hrest]%Forall_cons. constructor; [ | by apply IH ].
  by rewrite (Forall2_length _ _ _ Hrow).
Qed.

Lemma lowered_rows (P : nat → Prop) (offsets : list Q) (a : ndarray) :
  Forall (λ row, P (length row)) a → Forall (λ row, P (length row)) (lowered offsets a).
Proof.
  intros Ha. revert offsets. induction Ha as [|row a Hrow _ IH]; intros [|c offsets];
    try by constructor.
  cbn. constructor; [ by rewrite length_map | apply IH ].
Qed.

Lemma window_rows (start : Z) (len : nat) (a : ndarray) :
  Forall (λ row, (Z.to_nat start + len ≤ length row)%nat) a →
  Forall (λ row, length row = len) (window start len a).
Proof.
  intros Ha. apply Forall_map. eapply Forall_impl; [ exact Ha | ].
  intros row Hrow. cbv beta in *. rewrite length_take, length_drop. lia.
Qed.

Lemma lowered_zero (a : ndarray) : matrix_eq a (lowered (replicate (length a) 0%Q) a).
Proof.
  induction a as [|row a IH]; constructor; [ | exact IH ].
  induction row as [|x row IHr]; constructor; [ | exact IHr ].
  unfold Qminus. by rewrite Qplus_0_r.
Qed.

Lemma nearest_tmin (k : Z) : nearest k (tmin * sfreq) → k = (-31)%Z.
Proof. unfold nearest, Qle. cbn. lia. Qed.

Lemma nearest_tmax (k : Z) : nearest k (tmax * sfreq) → k = 156%Z.
Proof. unfold nearest, Qle. cbn. lia. Qed.

(** The sample offsets -31 to 156 are those whose time at 15.625 Hz lies
    within [-2, 10] seconds. *)
Lemma window_in_seconds (k : Z) :
  (-31 ≤ k ≤ 156)%Z ↔ (-2 <= inject_Z k / 15.625 ∧ inject_Z k / 15.625 <= 10)%Q.
Proof. unfold Qle. cbn. lia. Qed.

(** ** The executable library meets the contracts *)

Module ToyFacts.
Import Toy.

Lemma create_info_ok : create_info_contract (L := lib).
Proof.
  intros names sf types montage i. cbn. unfold info.
  destruct (length names =? length types)%nat; by intros [= <-].
Qed.

Lemma RawArray_ok : RawArray_contract (L := lib).
Proof.
  intros d i f r. cbn. unfold raw_array_of.
  destruct (length d =? length (ch_names i))%nat; by intros [= <-].
Qed.

Lemma find_events_ok : find_events_contract (L := lib).
Proof. intros r1 r2 ch shortest Hch Hfs. cbn. unfold events_of. by rewrite Hch, Hfs. Qed.

Lemma wanted_has_code ids e : wanted ids e = true → has_code ids e.
Proof.
  unfold wanted. rewrite existsb_exists. intros [[k c] [Hin Hc]].
  apply Z.eqb_eq in Hc. cbn in Hc. subst c.
  exists k. apply elem_of_map_to_list. by apply list_elem_of_In.
Qed.

Lemma slice_length a b row :
  (0 ≤ a ∧ a ≤ b ∧ b < Z.of_nat (length row))%Z →
  length (slice a b row) = Z.to_nat (b - a + 1).
Proof. intros H. unfold slice. rewrite length_take, length_drop. lia. Qed.

(** A window that is cut is anchored at its event and has the same number of
    samples on every channel. *)
Lemma cut_Some r t0 t1 e ep :
  rectangular r = true →
  cut r t0 t1 e = Some ep →
  ep_event ep = e ∧
  Forall (λ row, length row =
                 Z.to_nat (offset (info_sfreq (raw_info r)) t1 -
                           offset (info_sfreq (raw_info r)) t0 + 1))
         (ep_data ep).
Proof.
  intros Hrect. unfold cut. cbv zeta. case_bool_decide as Hrange; [|done]. intros [= <-].
  split; [done|]. cbn [ep_data]. apply Forall_map, Forall_forall. intros row Hrow.
  unfold rectangular in Hrect. rewrite forallb_forall in Hrect.
  specialize (Hrect row (proj1 (list_elem_of_In _ _) Hrow)). apply Nat.eqb_eq in Hrect.
  cbv beta. rewrite slice_length by lia. f_equal. lia.
Qed.

Lemma Epochs_ok : Epochs_contract (L := lib).
Proof.
  intros r ev ids t0 t1 proj baseline preload rej eps. cbn. unfold epochs_of.
  destruct (rectangular r) eqn:Hrect; [|done]. intros [= <-]. cbn.
  split_and!; try done.
  eexists. apply Forall_forall. intros ep Hep.
  apply list_elem_of_In, filter_In in Hep as [Hep Hgood].
  apply list_elem_of_In, list_elem_of_omap in Hep as (e & He & Hcut).
  apply list_elem_of_In, filter_In in He as [He Hw].
  destruct (cut_Some _ _ _ _ _ Hrect Hcut) as [-> Hlen].
  split_and!; [ by apply list_elem_of_In | by apply wanted_has_code | exact Hlen | done ].
Qed.

Lemma getitem_ok : getitem_contract (L := lib).
Proof.
  intros eps key sel. cbn. unfold select.
  destruct (eps_event_id eps !! key) as [code|] eqn:Hk; [|done].
  intros [= <-]. by exists code.
Qed.

Lemma Qred_rows (m : ndarray) : matrix_eq (map (map Qred) m) m.
Proof.
  induction m as [|row m IH]; constructor; [|done].
  induction row as [|x row IHr]; constructor; [apply Qred_correct | done].
Qed.

Lemma average_ok : average_contract (L := lib).
Proof.
  intros sel evk. cbn. unfold mean.
  destruct (eps_items sel) as [|e items] eqn:Hitems; [done|].
  intros [= <-]. cbn [evk_nave evk_data]. split; [done|]. apply Qred_rows.
Qed.

(** The runs on the disks of [Toy] are complete. *)
Lemma completed_run res : completed res = true → res = (res.1, inr (globals_of res)).
Proof. destruct res as [s [e|g]]; [discriminate | reflexivity]. Qed.

Lemma run_disk : run (L := lib) disk = (final, inr globals).
Proof. apply completed_run. vm_compute. reflexivity. Qed.

Lemma run_disk' : run (L := lib) disk' = (final', inr globals').
Proof. apply completed_run. vm_compute. reflexivity. Qed.

Lemma offset_nearest sf t : nearest (offset sf t) (t * sf).
Proof.
  unfold nearest, offset.
  pose proof (Qlt_floor (t * sf + 1 / 2)) as Hlt. rewrite inject_Z_plus in Hlt.
  pose proof (Qfloor_le (t * sf + 1 / 2)) as Hle.
  change (inject_Z 1) with 1%Q in Hlt. change (1 / 2)%Q with (1 # 2)%Q in *.
  split; lra.
Qed.

Lemma filter_ok : filter_contract (L := lib).
Proof.
  intros r l h fir r'. cbn. unfold filtered.
  destruct (Qle_bool h l); [ done | ]. by intros [= <-].
Qed.

Lemma cut_window r t0 t1 e ep :
  rectangular r = true →
  cut r t0 t1 e = Some ep →
  ep_event ep = e ∧
  (0 ≤ ev_sample e + offset (info_sfreq (raw_info r)) t0 - raw_first_samp r)%Z ∧
  Forall (λ row : list Q,
            (Z.to_nat (ev_sample e + offset (info_sfreq (raw_info r)) t0 - raw_first_samp r)
             + Z.to_nat (offset (info_sfreq (raw_info r)) t1
                         - offset (info_sfreq (raw_info r)) t0 + 1) ≤ length row)%nat)
         (raw_array r) ∧
  ep_data ep =
    window (ev_sample e + offset (info_sfreq (raw_info r)) t0 - raw_first_samp r)
      (Z.to_nat (offset (info_sfreq (raw_info r)) t1
                 - offset (info_sfreq (raw_info r)) t0 + 1)) (raw_array r).
Proof.
  intros Hrect. unfold cut. cbv zeta. case_bool_decide as Hrange; [ | done ].
  intros [= <-]. cbn [ep_event ep_data]. split_and!; [ done | lia | | ].
  - apply Forall_forall. intros row Hrow.
    unfold rectangular in Hrect. rewrite forallb_forall in Hrect.
    specialize (Hrect row (proj1 (list_elem_of_In _ _) Hrow)).
    apply Nat.eqb_eq in Hrect. lia.
  - unfold window. apply map_ext. intros row. unfold slice. f_equal. lia.
Qed.

Lemma Epochs_window_ok : Epochs_window_contract (L := lib).
Proof.
  intros r ev ids t0 t1 proj baseline preload rej eps. cbn. unfold epochs_of.
  destruct (rectangular r) eqn:Hrect; [ | done ]. intros [= <-]. cbn [eps_items].
  exists (offset (info_sfreq (raw_info r)) t0), (offset (info_sfreq (raw_info r)) t1).
  split_and!; [ apply offset_nearest | apply offset_nearest | ].
  apply Forall_forall. intros ep Hep.
  apply list_elem_of_In, filter_In in Hep as [Hep _].
  apply list_elem_of_In, list_elem_of_omap in Hep as (e & _ & Hcut).
  destruct (cut_window _ _ _ _ _ Hrect Hcut) as (He & Hstart & Hfit & Hdata).
  rewrite He. split_and!; [ exact Hstart | exact Hfit | ].
  exists (replicate (length (raw_array r)) 0%Q). split; [ apply length_replicate | ].
  rewrite Hdata.
  replace (length (raw_array r)) with (length (window
    (ev_sample e + offset (info_sfreq (raw_info r)) t0 - raw_first_samp r)
    (Z.to_nat (offset (info_sfreq (raw_info r)) t1
               - offset (info_sfreq (raw_info r)) t0 + 1)) (raw_array r)))
    by (unfold window; apply length_map).
  apply lowered_zero.
Qed.

End ToyFacts.

(** ** Properties of the module *)

Lemma omap_prefix {A B} (f : A → option B) (l k : list A) :
  l `prefix_of` k → omap f l `prefix_of` omap f k.
Proof. intros [m ->]. rewrite omap_app. by eexists. Qed.

(** C1, as the code has it: line 51 and line 89 each end their logical line
    on a '+' (no bracket is open there, the '[' of line 89 being inside a
    string literal, and no backslash ends the line), so the compiler rejects
    the module and no statement of it is executed, whatever is on disk. *)
Theorem module_rejected `{L : Library} (fs : FS) :
  Lexical.end_of_line (Lexical.scan Lexical.init (nth 2 Lexical.lines_49_56 ""%string))
    = Lexical.Newline (Some "+"%char) ∧
  Lexical.end_of_line (Lexical.scan Lexical.init (nth 1 Lexical.lines_88_96 ""%string))
    = Lexical.Newline (Some "+"%char) ∧
  Lexical.accepts Lexical.lines_49_56 = false ∧
  Lexical.accepts Lexical.lines_88_96 = false ∧
  run_module fs = (mkState fs ∅ [], inl (PyExn "SyntaxError" "invalid syntax")).
Proof. split_and!; reflexivity. Qed.

(** C2, as the specification states it, fails on a complete run: the events
    are plotted before the filter is applied, and five plots are drawn. *)
Lemma spec_order_violated :
  steps (st_trace (run (L := Toy.lib) Toy.disk).1) =
    [SLoad; SMetadata; SRecording; SDetect; SPlot; SFilter; SPlot; SPlot; SEpoch;
     SPlot; SAverage; SPlot] ∧
  is_subseq (steps (st_trace (run (L := Toy.lib) Toy.disk).1)) spec_order = false.
Proof. split; vm_compute; reflexivity. Qed.

(** C2, amended: in every run the library calls are made in the order of the
    source (load, create_info, RawArray, find_events, plot_events, filter,
    np.max, Raw.plot twice, Epochs, Epochs.plot, the selection of
    'Biological', average, Evoked.plot), none more often than it stands
    there; a run that ends early has made a prefix of them and a complete
    run all fourteen. *)
Theorem calls_in_source_order `{L : Library} (fs : FS) :
  ops (st_trace (run fs).1) `prefix_of` source_order ∧
  steps (st_trace (run fs).1) `prefix_of`
    [SLoad; SMetadata; SRecording; SDetect; SPlot; SFilter; SPlot; SPlot; SEpoch;
     SPlot; SAverage; SPlot] ∧
  match (run fs).2 with
  | inr _ => ops (st_trace (run fs).1) = source_order
  | inl _ => True
  end.
Proof.
  destruct (run fs) as [s r] eqn:Hrun.
  destruct (run_discipline _ _ _ Hrun) as (_ & Hpre & _ & _ & Hend). cbn [fst snd].
  split_and!; [ done | exact (omap_prefix step_of _ _ Hpre) | by destruct r ].
Qed.

(** C3: the metadata record of a complete run has 2 * n_channels + 1 = 41
    channel names and as many types: twenty 'hbo', twenty 'hbr', one 'stim';
    its sampling frequency is 15.625. *)
Theorem metadata_record `{L : Library} (fs : FS) (s : State) (g : Globals) :
  create_info_contract →
  run fs = (s, inr g) →
  length (ch_names (g_info g)) = (2 * n_channels + 1)%nat ∧
  length (ch_names (g_info g)) = 41%nat ∧
  length (ch_types (g_info g)) = length (ch_names (g_info g)) ∧
  ch_types (g_info g) =
    replicate 20 "hbo"%string ++ replicate 20 "hbr"%string ++ ["stim"%string] ∧
  info_sfreq (g_info g) = 15.625%Q.
Proof.
  intros Hinfo Hrun. apply run_complete in Hrun as (v & Hret & _ & ->).
  rewrite (Hinfo _ _ _ _ _ (ret_info _ _ Hret)). cbn [g_info ch_names ch_types info_sfreq].
  split_and!; reflexivity.
Qed.

Lemma metadata_record_witness :
  length (ch_names (g_info Toy.globals)) = (2 * n_channels + 1)%nat ∧
  length (ch_names (g_info Toy.globals)) = 41%nat ∧
  length (ch_types (g_info Toy.globals)) = length (ch_names (g_info Toy.globals)) ∧
  ch_types (g_info Toy.globals) =
    replicate 20 "hbo"%string ++ replicate 20 "hbr"%string ++ ["stim"%string] ∧
  info_sfreq (g_info Toy.globals) = 15.625%Q.
Proof.
  exact (metadata_record (L := Toy.lib) Toy.disk Toy.final Toy.globals
           ToyFacts.create_info_ok ToyFacts.run_disk).
Defined.

(** C4: the events table (rows of sample index, previous code, new code) is
    what [find_events] returns for the recording as constructed, on the
    channel named 'Events'; that channel is row 40 of the array, the one of
    type 'stim', and two recordings that agree on it give the same table. *)
Theorem events_from_stim_channel `{L : Library} (fs fs' : FS) (s s' : State)
    (g g' : Globals) :
  create_info_contract → RawArray_contract → find_events_contract →
  run fs = (s, inr g) → run fs' = (s', inr g') →
  g_raw_ndarray g !! 40%nat = g_raw_ndarray g' !! 40%nat →
  channel_names !! 40%nat = Some "Events"%string ∧
  channel_types !! 40%nat = Some "stim"%string ∧
  find_events (mkRaw (g_info g) (g_raw_ndarray g) 0) "Events" 1 = inr (g_events g) ∧
  channel (mkRaw (g_info g) (g_raw_ndarray g) 0) "Events" = g_raw_ndarray g !! 40%nat ∧
  g_events g = g_events g'.
Proof.
  intros Hinfo Hraw Hfind Hrun Hrun' Hrow.
  apply run_complete in Hrun as (v & Hret & _ & ->).
  apply run_complete in Hrun' as (v' & Hret' & _ & ->).
  cbn [g_info g_raw_ndarray g_events] in *.
  pose proof (ret_events _ _ Hret) as He. pose proof (ret_events _ _ Hret') as He'.
  rewrite (Hraw _ _ _ _ (ret_raw _ _ Hret)) in He.
  rewrite (Hraw _ _ _ _ (ret_raw _ _ Hret')) in He'.
  assert (Hch : ∀ w, v_info w = mkInfo channel_names channel_types sfreq →
                     channel (mkRaw (v_info w) (v_array w) 0) "Events"
                     = v_array w !! 40%nat).
  { intros w ->. reflexivity. }
  pose proof (Hch v (Hinfo _ _ _ _ _ (ret_info _ _ Hret))) as Hc.
  pose proof (Hch v' (Hinfo _ _ _ _ _ (ret_info _ _ Hret'))) as Hc'.
  split_and!; [ reflexivity | reflexivity | exact He | exact Hc | ].
  rewrite (Hfind _ (mkRaw (v_info v') (v_array v') 0)) in He
    by (by rewrite ?Hc, ?Hc', ?Hrow).
  congruence.
Qed.

Lemma events_from_stim_channel_witness :
  g_raw_ndarray Toy.globals !! 3%nat ≠ g_raw_ndarray Toy.globals' !! 3%nat ∧
  g_raw_ndarray Toy.globals !! 40%nat = g_raw_ndarray Toy.globals' !! 40%nat ∧
  g_events Toy.globals = [(40, 0, 2); (52, 2, 4); (64, 4, 2); (76, 2, 8)]%Z ∧
  g_events Toy.globals = g_events Toy.globals'.
Proof.
  assert (Hrow : g_raw_ndarray Toy.globals !! 40%nat = g_raw_ndarray Toy.globals' !! 40%nat)
    by (vm_compute; reflexivity).
  split_and!;
    [ vm_compute; discriminate | exact Hrow | vm_compute; reflexivity
    | exact (proj2 (proj2 (proj2 (proj2
        (events_from_stim_channel (L := Toy.lib) Toy.disk Toy.disk' Toy.final Toy.final'
           Toy.globals Toy.globals' ToyFacts.create_info_ok ToyFacts.RawArray_ok
           ToyFacts.find_events_ok ToyFacts.run_disk ToyFacts.run_disk' Hrow))))) ].
Defined.

(** C5: the epochs of a complete run are windows of the filtered recording
    from tmin = -2 s to tmax = 10 s around detected events.  Each epoch is
    anchored at a detected event whose code is one of [event_id]; its data
    are the 188 samples from 31 before to 156 after the event (the sample
    offsets whose time at 15.625 Hz lies within [-2, 10] seconds) of every
    channel of the recording as filtered, each channel lowered by a constant
    (the baseline); and none of them has a haemoglobin channel ('hbo' or
    'hbr') whose peak-to-peak amplitude exceeds 1.5e-5, every such epoch
    having been dropped. *)
Theorem epochs_windows_and_rejection `{L : Library} (fs : FS) (s : State) (g : Globals) :
  create_info_contract → RawArray_contract → filter_contract →
  Epochs_contract → Epochs_window_contract →
  run fs = (s, inr g) →
  eps_tmin (g_epochs g) = (-2)%Q ∧ eps_tmax (g_epochs g) = 10%Q ∧
  (∀ k : Z, (-31 ≤ k ≤ 156)%Z ↔
            (-2 <= inject_Z k / 15.625 ∧ inject_Z k / 15.625 <= 10)%Q) ∧
  ∃ raw0 raw1,
    raw_filter raw0 l_freq h_freq "firwin" = inr raw1 ∧
    st_heap s !! g_raw_data g = Some raw1 ∧
    Forall (λ e,
         ep_event e ∈ g_events g ∧ has_code event_id (ep_event e) ∧
         (0 ≤ ev_sample (ep_event e) - 31)%Z ∧
         Forall (λ row : list Q,
                   (Z.to_nat (ev_sample (ep_event e) - 31) + 188 ≤ length row)%nat)
                (raw_array raw1) ∧
         (∃ offsets,
            length offsets = length (raw_array raw1) ∧
            matrix_eq (ep_data e)
              (lowered offsets
                 (window (ev_sample (ep_event e) - 31) 188 (raw_array raw1)))) ∧
         Forall (λ row, length row = 188%nat) (ep_data e) ∧
         ∀ (i : nat) ty row,
           ch_types (eps_info (g_epochs g)) !! i = Some ty →
           ty = "hbo"%string ∨ ty = "hbr"%string →
           ep_data e !! i = Some row → (p2p row <= 1.5e-5)%Q)
       (eps_items (g_epochs g)).
Proof.
  intros Hinfo Hraw Hfilter Hepochs Hwindow Hrun.
  apply run_complete in Hrun as (v & Hret & -> & ->).
  cbn [g_epochs g_events g_raw_data st_heap].
  destruct (Hepochs _ _ _ _ _ _ _ _ _ _ (ret_epochs _ _ Hret))
    as (Hi & _ & Ht0 & Ht1 & n & Hitems).
  destruct (Hwindow _ _ _ _ _ _ _ _ _ _ (ret_epochs _ _ Hret))
    as (k0 & k1 & Hk0 & Hk1 & Hcut).
  destruct (Hfilter _ _ _ _ _ (ret_filter _ _ Hret)) as [Hsame_info Hsame_first].
  rewrite (Hraw _ _ _ _ (ret_raw _ _ Hret)) in Hsame_info, Hsame_first.
  rewrite (Hinfo _ _ _ _ _ (ret_info _ _ Hret)) in Hsame_info.
  cbn [raw_info raw_first_samp] in Hsame_info, Hsame_first.
  rewrite Hsame_info in Hk0, Hk1. cbn [info_sfreq] in Hk0, Hk1.
  apply nearest_tmin in Hk0 as ->. apply nearest_tmax in Hk1 as ->.
  split_and!; [ done | done | exact window_in_seconds | ].
  exists (v_raw v), (v_filtered v).
  split_and!; [ exact (ret_filter _ _ Hret) | apply lookup_singleton_eq | ].
  rewrite Forall_forall in Hitems, Hcut. apply Forall_forall. intros e He.
  destruct (Hitems e He) as (Hev & Hcode & _ & Hgood).
  destruct (Hcut e He) as (Hstart & Hfit & offsets & Hlen & Hdata).
  rewrite Hsame_first in Hstart, Hfit, Hdata.
  replace (ev_sample (ep_event e) + -31 - 0)%Z with (ev_sample (ep_event e) - 31)%Z
    in Hstart, Hfit, Hdata by lia.
  change (Z.to_nat (156 - -31 + 1)) with 188%nat in Hfit, Hdata.
  split_and!; [ done | done | exact Hstart | exact Hfit | by exists offsets | | ].
  - apply (matrix_eq_rows (λ m, m = 188%nat) _ _ Hdata).
    apply (lowered_rows (λ m, m = 188%nat)), window_rows, Hfit.
  - intros i ty row Hty Hhb Hrow. rewrite Hi in Hty.
    apply (is_good_within _ _ _ Hgood i ty row); [ done | done | ].
    by destruct Hhb as [-> | ->].
Qed.

Lemma epochs_windows_and_rejection_witness :
  map ep_event (eps_items (g_epochs Toy.globals)) = [(40, 0, 2); (52, 2, 4); (64, 4, 2)]%Z ∧
  eps_tmin (g_epochs Toy.globals) = (-2)%Q ∧ eps_tmax (g_epochs Toy.globals) = 10%Q ∧
  (∀ k : Z, (-31 ≤ k ≤ 156)%Z ↔
            (-2 <= inject_Z k / 15.625 ∧ inject_Z k / 15.625 <= 10)%Q) ∧
  ∃ raw0 raw1,
    @raw_filter Toy.lib raw0 l_freq h_freq "firwin" = inr raw1 ∧
    st_heap Toy.final !! g_raw_data Toy.globals = Some raw1 ∧
    Forall (λ e,
         ep_event e ∈ g_events Toy.globals ∧ has_code event_id (ep_event e) ∧
         (0 ≤ ev_sample (ep_event e) - 31)%Z ∧
         Forall (λ row : list Q,
                   (Z.to_nat (ev_sample (ep_event e) - 31) + 188 ≤ length row)%nat)
                (raw_array raw1) ∧
         (∃ offsets,
            length offsets = length (raw_array raw1) ∧
            matrix_eq (ep_data e)
              (lowered offsets
                 (window (ev_sample (ep_event e) - 31) 188 (raw_array raw1)))) ∧
         Forall (λ row, length row = 188%nat) (ep_data e) ∧
         ∀ (i : nat) ty row,
           ch_types (eps_info (g_epochs Toy.globals)) !! i = Some ty →
           ty = "hbo"%string ∨ ty = "hbr"%string →
           ep_data e !! i = Some row → (p2p row <= 1.5e-5)%Q)
       (eps_items (g_epochs Toy.globals)).
Proof.
  split; [ vm_compute; reflexivity | ].
  exact (epochs_windows_and_rejection (L := Toy.lib) Toy.disk Toy.final Toy.globals
           ToyFacts.create_info_ok ToyFacts.RawArray_ok ToyFacts.filter_ok
           ToyFacts.Epochs_ok ToyFacts.Epochs_window_ok ToyFacts.run_disk).
Defined.

(** C6: the evoked response of a complete run is the pointwise mean of those
    epochs of the collection whose event code is 2, the code of
    'Biological', and of no others. *)
Theorem evoked_is_biological_average `{L : Library} (fs : FS) (s : State) (g : Globals) :
  Epochs_contract → getitem_contract → average_contract →
  run fs = (s, inr g) →
  event_id !! "Biological"%string = Some 2%Z ∧
  evk_nave (g_evoked_1 g) =
    length (filter (λ e, ev_code (ep_event e) = 2%Z) (eps_items (g_epochs g))) ∧
  matrix_eq (evk_data (g_evoked_1 g))
    (mean_matrix (map ep_data
       (filter (λ e, ev_code (ep_event e) = 2%Z) (eps_items (g_epochs g))))).
Proof.
  intros Hepochs Hget Havg Hrun. apply run_complete in Hrun as (v & Hret & _ & ->).
  cbn [g_epochs g_evoked_1].
  assert (Hbio : event_id !! "Biological"%string = Some 2%Z) by reflexivity.
  destruct (Hepochs _ _ _ _ _ _ _ _ _ _ (ret_epochs _ _ Hret)) as (_ & Hids & _).
  destruct (Hget _ _ _ (ret_getitem _ _ Hret)) as (code & Hcode & Hsel).
  rewrite Hids, Hbio in Hcode. injection Hcode as <-.
  destruct (Havg _ _ (ret_average _ _ Hret)) as [Hn Hmean].
  rewrite Hsel in Hn, Hmean. done.
Qed.

Lemma evoked_is_biological_average_witness :
  map (λ e, ev_code (ep_event e)) (eps_items (g_epochs Toy.globals)) = [2; 4; 2]%Z ∧
  evk_nave (g_evoked_1 Toy.globals) = 2%nat ∧
  matrix_eq (evk_data (g_evoked_1 Toy.globals))
    (mean_matrix (map ep_data
       (filter (λ e, ev_code (ep_event e) = 2%Z) (eps_items (g_epochs Toy.globals))))).
Proof.
  destruct (evoked_is_biological_average (L := Toy.lib) Toy.disk Toy.final Toy.globals
              ToyFacts.Epochs_ok ToyFacts.getitem_ok ToyFacts.average_ok ToyFacts.run_disk)
    as (_ & Hn & Hmean).
  split_and!; [ vm_compute; reflexivity | vm_compute; reflexivity | exact Hmean ].
Defined.

(** C7: in every run the filesystem is the same after as before, and the
    only access to it is one read, of '/home/matteo/raw_ndarray.npy'. *)
Theorem single_file_read `{L : Library} (fs : FS) :
  st_fs (run fs).1 = fs ∧
  fs_accesses (st_trace (run fs).1) = [FsRead "/home/matteo/raw_ndarray.npy"].
Proof.
  destruct (run fs) as [s r] eqn:Hrun.
  by destruct (run_discipline _ _ _ Hrun) as (Hfs & _ & Hacc & _).
Qed.

(** C8: the outcome of a run is the exception [e] exactly when a library
    call raised [e]; the call that raised is then the last one made. *)
Theorem errors_propagate `{L : Library} (fs : FS) (e : exn) :
  ((run fs).2 = inl e ↔ ∃ c, (c, Some e) ∈ st_trace (run fs).1) ∧
  ∀ c, (c, Some e) ∈ st_trace (run fs).1 →
       last (st_trace (run fs).1) = Some (c, Some e).
Proof.
  destruct (run fs) as [s r] eqn:Hrun.
  destruct (run_discipline _ _ _ Hrun) as (_ & _ & _ & Hraise & Hend). cbn [fst snd].
  split; [ split | ].
  - intros ->. destruct Hend as [c Hc]. exists c.
    apply list_elem_of_lookup. exists (pred (length (st_trace s))).
    by rewrite <- last_lookup.
  - intros [c Hc]. by destruct (Hraise c e Hc).
  - intros c Hc. by destruct (Hraise c e Hc).
Qed.

Lemma errors_propagate_witness :
  (run (L := Toy.lib) Toy.disk_spiky).2 = inl (PyExn "ValueError" "no epochs to average").
Proof.
  apply (proj1 (errors_propagate (L := Toy.lib) Toy.disk_spiky _)).
  eexists. apply (list_elem_of_lookup_2 _ 12%nat). vm_compute. reflexivity.
Defined.



(** C10: in a complete run the events table is what [find_events] returned
    for the recording as constructed; the filter is then applied to that same
    recording and its result replaces the contents of the one recording
    object; the table passed on afterwards is the same one, and both
    [Raw.plot] calls and [Epochs] are given the filtered recording, the
    average being taken over epochs built from it. *)
Theorem events_precede_filter `{L : Library} (fs : FS) (s : State) (g : Globals) :
  run fs = (s, inr g) →
  ∃ raw0 raw1 duration biological,
    RawArray (g_raw_ndarray g) (g_info g) 0 = inr raw0 ∧
    find_events raw0 "Events" 1 = inr (g_events g) ∧
    raw_filter raw0 l_freq h_freq "firwin" = inr raw1 ∧
    st_heap s = {[ g_raw_data g := raw1 ]} ∧
    Epochs_init raw1 (g_events g) event_id tmin tmax true (None, Some 0%Q) true reject
      = inr (g_epochs g) ∧
    epochs_getitem (g_epochs g) "Biological" = inr biological ∧
    epochs_average biological = inr (g_evoked_1 g) ∧
    map fst (st_trace s) = [
      CLoad "/home/matteo/raw_ndarray.npy";
      CCreateInfo channel_names sfreq channel_types None;
      CRawArray (g_raw_ndarray g) (g_info g) 0;
      CFindEvents raw0 "Events" 1;
      CPlotEvents (g_events g) (info_sfreq (raw_info raw0)) (raw_first_samp raw0)
        color event_id;
      CFilter raw0 l_freq h_freq "firwin";
      CNpMax (raw_times raw1);
      CRawPlot raw1
        (mkPlotArgs title_92 (g_events g) 0.0 plot_colors color duration scalings
           "original" (Some (length channel_names)) false None None);
      CRawPlot raw1
        (mkPlotArgs title_103 (g_events g) 0.0 plot_colors color 36 scalings
           "original" None false None None);
      CEpochs raw1 (g_events g) event_id tmin tmax true (None, Some 0%Q) true reject;
      CEpochsPlot (g_epochs g) "fNIRS Epochs";
      CGetItem (g_epochs g) "Biological";
      CAverage biological;
      CEvokedPlot (g_evoked_1 g)
    ].
Proof.
  intros Hrun. apply run_complete in Hrun as (v & [] & -> & ->).
  exists (v_raw v), (v_filtered v), (v_duration v), (v_biological v).
  cbn [g_raw_ndarray g_info g_events g_epochs g_evoked_1 g_raw_data st_heap st_trace].
  split_and!; done.
Qed.

Lemma events_precede_filter_witness :
  ∃ raw0 raw1,
    @find_events Toy.lib raw0 "Events" 1 = inr (g_events Toy.globals) ∧
    @raw_filter Toy.lib raw0 l_freq h_freq "firwin" = inr raw1 ∧
    raw_array raw0 ≠ raw_array raw1 ∧
    st_heap Toy.final = {[ g_raw_data Toy.globals := raw1 ]}.
Proof.
  destruct (events_precede_filter (L := Toy.lib) Toy.disk Toy.final Toy.globals
              ToyFacts.run_disk)
    as (raw0 & raw1 & duration & biological & Hraw & Hev & Hfilt & Hheap & _).
  exists raw0, raw1. split_and!; [ exact Hev | exact Hfilt | | exact Hheap ].
  intros Heq. apply ToyFacts.RawArray_ok in Hraw.
  pose (probe := λ r : exn + Raw,
          match r with
          | inr r => raw_array r !! 0%nat ≫= (.!! 1%nat)
          | inl _ => None
          end).
  assert (Hsame : probe (@raw_filter Toy.lib raw0 l_freq h_freq "firwin")
                  = probe (inr raw0))
    by (rewrite Hfilt; unfold probe; by rewrite Heq).
  rewrite Hraw in Hsame. vm_compute in Hsame. discriminate Hsame.
Defined.

(** ** Further properties of the module *)


(** The label of a number: its decimal digits read back give the number. *)
Lemma fmt_2d_read (i : nat) :
  ∃ u, NilEmpty.uint_of_string (fmt_2d i) = Some u ∧ Nat.of_uint u = i.
Proof.
  unfold fmt_2d. cbv zeta.
  destruct (String.length _ <? 2)%nat.
  - exists (Decimal.D0 (Nat.to_uint i)). split.
    + change (NilEmpty.uint_of_string ("0" +:+ ?s))
        with (uint_of_char "0" (NilEmpty.uint_of_string s)).
      by rewrite NilEmpty.usu.
    + rewrite <- (DecimalNat.Unsigned.of_to i) at 2. reflexivity.
  - exists (Nat.to_uint i). split; [ apply NilEmpty.usu | apply DecimalNat.Unsigned.of_to ].
Qed.

Lemma to_uint_not_Nil (i : nat) : Nat.to_uint i ≠ Decimal.Nil.
Proof.
  rewrite <- (DecimalNat.Unsigned.of_to i) at 1. rewrite DecimalNat.Unsigned.to_of.
  unfold Decimal.unorm. by destruct (Decimal.nzhead _).
Qed.

Lemma fmt_2d_inj (i j : nat) : fmt_2d i = fmt_2d j → i = j.
Proof.
  intros Heq. destruct (fmt_2d_read i) as (u & Hu & <-).
  destruct (fmt_2d_read j) as (w & Hw & <-). rewrite Heq in Hu. congruence.
Qed.

Lemma fmt_2d_width (i : nat) : (2 ≤ String.length (fmt_2d i))%nat.
Proof.
  unfold fmt_2d. cbv zeta.
  destruct (String.length _ <? 2)%nat eqn:Hlt.
  - pose proof (to_uint_not_Nil i) as Hnil.
    destruct (Nat.to_uint i); try done;
      simpl; lia.
  - by apply Nat.ltb_ge in Hlt.
Qed.

Lemma fmt_2d_small (i : nat) : (i < 100)%nat → String.length (fmt_2d i) = 2%nat.
Proof.
  intros Hi.
  assert (Hall : forallb (λ k, String.length (fmt_2d k) =? 2)%nat (seq 0 100) = true)
    by (vm_compute; reflexivity).
  rewrite forallb_forall in Hall. apply Nat.eqb_eq, (Hall i), in_seq. lia.
Qed.


(** X3: the two-digit label of a number ('%.2d'): different numbers get
    different labels, a label has at least two characters and exactly two
    below 100, and its digits read back as a decimal give the number. *)
Theorem fmt_2d_labels (i j : nat) :
  (fmt_2d i = fmt_2d j ↔ i = j) ∧
  (2 ≤ String.length (fmt_2d i))%nat ∧
  ((i < 100)%nat → String.length (fmt_2d i) = 2%nat) ∧
  ∃ u, NilEmpty.uint_of_string (fmt_2d i) = Some u ∧ Nat.of_uint u = i.
Proof.
  split_and!.
  - split; [ apply fmt_2d_inj | by intros -> ].
  - apply fmt_2d_width.
  - apply fmt_2d_small.
  - apply fmt_2d_read.
Qed.

Lemma range_from_1 (n : nat) : range 1 (n + 1) = seq 1 n.
Proof. unfold range. by rewrite Nat.add_sub. Qed.

Lemma names_for_length (n : nat) : length (names_for n) = (2 * n + 1)%nat.
Proof.
  unfold names_for. rewrite !length_app, !length_map, range_from_1, length_seq. cbn. lia.
Qed.

Lemma types_for_length (n : nat) : length (types_for n) = (2 * n + 1)%nat.
Proof. unfold types_for. rewrite !length_app, !length_replicate. cbn. lia. Qed.

Lemma names_for_hbo (n i : nat) :
  (i < n)%nat → names_for n !! i = Some ("HbO " +:+ fmt_2d (S i))%string.
Proof.
  intros Hi. unfold names_for. rewrite range_from_1.
  rewrite lookup_app_l by (rewrite length_app, !length_map, length_seq; lia).
  rewrite lookup_app_l by (rewrite length_map, length_seq; lia).
  by rewrite list_lookup_fmap, lookup_seq_lt.
Qed.

Lemma names_for_hbr (n i : nat) :
  (i < n)%nat → names_for n !! (n + i)%nat = Some ("HbR " +:+ fmt_2d (S i))%string.
Proof.
  intros Hi. unfold names_for. rewrite range_from_1.
  rewrite lookup_app_l by (rewrite length_app, !length_map, length_seq; lia).
  rewrite lookup_app_r by (rewrite length_map, length_seq; lia).
  rewrite length_map, length_seq, Nat.add_comm, Nat.add_sub.
  by rewrite list_lookup_fmap, lookup_seq_lt.
Qed.

Lemma names_for_events (n : nat) : names_for n !! (2 * n)%nat = Some "Events"%string.
Proof.
  unfold names_for. rewrite range_from_1.
  rewrite lookup_app_r by (rewrite length_app, !length_map, length_seq; lia).
  rewrite length_app, !length_map, length_seq.
  by replace (2 * n - (n + n))%nat with 0%nat by lia.
Qed.

Lemma types_for_lookup (n i : nat) :
  types_for n !! i =
  if decide (i < n)%nat then Some "hbo"%string
  else if decide (i < 2 * n)%nat then Some "hbr"%string
  else if decide (i = 2 * n)%nat then Some "stim"%string
  else None.
Proof.
  unfold types_for. repeat case_decide.
  - rewrite lookup_app_l by (rewrite length_replicate; lia). by apply lookup_replicate_2.
  - rewrite lookup_app_r by (rewrite length_replicate; lia).
    rewrite lookup_app_l by (rewrite !length_replicate; lia).
    apply lookup_replicate_2. rewrite length_replicate. lia.
  - rewrite lookup_app_r by (rewrite length_replicate; lia).
    rewrite lookup_app_r by (rewrite !length_replicate; lia).
    rewrite !length_replicate. by replace (i - n - n)%nat with 0%nat by lia.
  - apply lookup_ge_None. rewrite !length_app, !length_replicate. cbn. lia.
Qed.

(** X4: for any number n of physical channels the names and the types of
    lines 51 to 54 line up: both lists have 2 n + 1 entries; entry i < n is
    'HbO' with the two-digit label of i + 1 and has type 'hbo', entry n + i
    is 'HbR' with that label and has type 'hbr', and the last entry is
    'Events' with type 'stim'.  The module's lists are the case n = 20. *)
Theorem names_and_types_align (n : nat) :
  channel_names = names_for n_channels ∧ channel_types = types_for n_channels ∧
  length (names_for n) = (2 * n + 1)%nat ∧
  length (types_for n) = length (names_for n) ∧
  (∀ i : nat, (i < n)%nat →
     names_for n !! i = Some ("HbO " +:+ fmt_2d (S i))%string ∧
     types_for n !! i = Some "hbo"%string) ∧
  (∀ i : nat, (i < n)%nat →
     names_for n !! (n + i)%nat = Some ("HbR " +:+ fmt_2d (S i))%string ∧
     types_for n !! (n + i)%nat = Some "hbr"%string) ∧
  names_for n !! (2 * n)%nat = Some "Events"%string ∧
  types_for n !! (2 * n)%nat = Some "stim"%string.
Proof.
  split_and!; try reflexivity.
  - apply names_for_length.
  - by rewrite names_for_length, types_for_length.
  - intros i Hi. split; [ by apply names_for_hbo | ].
    rewrite types_for_lookup. by rewrite decide_True.
  - intros i Hi. split; [ by apply names_for_hbr | ].
    rewrite types_for_lookup. rewrite decide_False by lia. by rewrite decide_True by lia.
  - apply names_for_events.
  - rewrite types_for_lookup. rewrite !decide_False by lia. by rewrite decide_True.
Qed.

(** X5: whatever the number of physical channels, no two channels get the
    same name: a name identifies one row of the array. *)
Theorem channel_names_distinct (n : nat) :
  NoDup (names_for n) ∧
  ∀ (i j : nat) name,
    names_for n !! i = Some name → names_for n !! j = Some name → i = j.

Proof.
  assert (Hnd : NoDup (names_for n)); [ | split; [ done | intros i j name; by apply NoDup_lookup ] ].
  unfold names_for.
  assert (Hinj : ∀ p : string, Inj (=) (=) (λ i, p +:+ fmt_2d i)%string).
  { intros p i j Heq. apply fmt_2d_inj. revert Heq. clear.
    induction p as [|c p IH]; cbn; [ done | intros [= Heq]; by apply IH ]. }
  apply NoDup_app. split_and!.
  - apply NoDup_app. split_and!.
    + apply (NoDup_fmap_2 _), NoDup_seq.
    + intros x [i [-> _]]%list_elem_of_fmap [j [Heq _]]%list_elem_of_fmap. discriminate Heq.
    + apply (NoDup_fmap_2 _), NoDup_seq.
  - intros x Hx ->%list_elem_of_singleton.
    apply elem_of_app in Hx as [[i [Heq _]]%list_elem_of_fmap | [i [Heq _]]%list_elem_of_fmap];
      discriminate Heq.
  - apply NoDup_singleton.
Qed.

Lemma types_for_elem (n : nat) (ty : string) :
  ty ∈ types_for n → ty = "hbo"%string ∨ ty = "hbr"%string ∨ ty = "stim"%string.
Proof.
  unfold types_for. intros H.
  apply elem_of_app in H as [H | H]; [ apply elem_of_replicate in H as [-> _]; by left | ].
  apply elem_of_app in H as [H | H];
    [ apply elem_of_replicate in H as [-> _]; right; by left | ].
  apply list_elem_of_singleton in H as ->. right; by right.
Qed.

Lemma table_domains :
  dom scalings = {["hbo"; "hbr"; "stim"]}%string ∧
  dom plot_colors = {["hbo"; "hbr"; "stim"]}%string.
Proof.
  unfold scalings, plot_colors. cbn [list_to_map foldr].
  rewrite !dom_insert_L, !dom_empty_L. split; apply set_eq; intros x;
    rewrite !elem_of_union, !elem_of_singleton, elem_of_empty; tauto.
Qed.

(** X6: every channel type the module assigns has a scaling and a plot
    colour; the two tables have the same keys, the keys of [reject] are among
    them, and the only assigned type without a rejection threshold is
    'stim'. *)
Theorem channel_type_tables (n : nat) (ty : string) :
  ty ∈ types_for n →
  is_Some (scalings !! ty) ∧ is_Some (plot_colors !! ty) ∧
  dom scalings = dom plot_colors ∧ dom reject ⊆ dom scalings ∧
  (is_Some (reject !! ty) ↔ ty ≠ "stim"%string).
Proof.
  intros Hty. destruct table_domains as [Hs Hp].
  assert (Hin : ty ∈ ({["hbo"; "hbr"; "stim"]}%string : gset string)).
  { rewrite !elem_of_union, !elem_of_singleton.
    apply types_for_elem in Hty. tauto. }
  split_and!.
  - apply elem_of_dom. by rewrite Hs.
  - apply elem_of_dom. by rewrite Hp.
  - by rewrite Hs, Hp.
  - rewrite Hs, reject_dom. intros x. rewrite !elem_of_union, !elem_of_singleton. tauto.
  - rewrite <- elem_of_dom, reject_dom, !elem_of_union, !elem_of_singleton.
    apply types_for_elem in Hty as [-> | [-> | ->]]; split; try done; try tauto.
    intros [H | H]; discriminate H.
Qed.

Lemma channel_type_tables_witness :
  is_Some (scalings !! "stim"%string) ∧ is_Some (plot_colors !! "stim"%string) ∧
  dom scalings = dom plot_colors ∧ dom reject ⊆ dom scalings ∧
  (is_Some (reject !! "stim"%string) ↔ "stim"%string ≠ "stim"%string).
Proof.
  apply (channel_type_tables n_channels "stim").
  apply list_elem_of_lookup. exists 40%nat. reflexivity.
Defined.

Lemma event_id_list :
  map_to_list event_id ≡ₚ
    [("ISI", 1); ("Biological", 2); ("Rotation", 4); ("Scrambled", 8); ("Pause", 16)]%string%Z.
Proof. unfold event_id. apply map_to_list_to_map, (bool_decide_eq_true_1 _). vm_compute. reflexivity. Qed.

Lemma event_id_lookup (name : string) (code : Z) :
  event_id !! name = Some code ↔
  (name, code) ∈
    [("ISI", 1); ("Biological", 2); ("Rotation", 4); ("Scrambled", 8); ("Pause", 16)]%string%Z.
Proof. by rewrite <- elem_of_map_to_list, event_id_list. Qed.

Lemma color_list :
  map_to_list color ≡ₚ
    [(1, "black"); (2, "green"); (4, "magenta"); (8, "cyan"); (16, "yellow")]%string%Z.
Proof. unfold color. apply map_to_list_to_map, (bool_decide_eq_true_1 _). vm_compute. reflexivity. Qed.

Lemma color_lookup (code : Z) (c : string) :
  color !! code = Some c ↔
  (code, c) ∈
    [(1, "black"); (2, "green"); (4, "magenta"); (8, "cyan"); (16, "yellow")]%string%Z.
Proof. by rewrite <- elem_of_map_to_list, color_list. Qed.

(** X7: the colour table of line 71 has an entry for a code exactly when
    some condition of [event_id] has that code; no two conditions share a
    code, so a code names one condition; and the codes are exactly 1, 2, 4,
    8 and 16, the powers of two below 32. *)
Theorem event_codes_and_colours (code : Z) :
  ((∃ name, event_id !! name = Some code) ↔ is_Some (color !! code)) ∧
  (∀ name name', event_id !! name = Some code → event_id !! name' = Some code →
                 name = name') ∧
  (is_Some (color !! code) ↔ code ∈ [1; 2; 4; 8; 16]%Z) ∧
  (code ∈ [1; 2; 4; 8; 16]%Z ↔ ∃ k : nat, (k < 5)%nat ∧ code = (2 ^ Z.of_nat k)%Z).
Proof.
  split_and!.
  - split.
    + intros [name H%event_id_lookup].
      repeat (apply elem_of_cons in H as [[= -> ->] | H];
              [ eexists; vm_compute; reflexivity | ]).
      by apply elem_of_nil in H.
    + intros [c H%color_lookup].
      repeat (apply elem_of_cons in H as [[= -> ->] | H];
              [ eexists; apply event_id_lookup; repeat first [ by left | right ] | ]).
      by apply elem_of_nil in H.
  - intros name name' H%event_id_lookup H'%event_id_lookup.
    repeat (apply elem_of_cons in H as [H | H]); [ .. | by apply elem_of_nil in H ];
      repeat (apply elem_of_cons in H' as [H' | H']);
      try (by apply elem_of_nil in H'); congruence.
  - split.
    + intros [c H%color_lookup].
      repeat (apply elem_of_cons in H as [[= -> ->] | H];
              [ repeat first [ by left | right ] | ]).
      by apply elem_of_nil in H.
    + intros H.
      repeat (apply elem_of_cons in H as [-> | H];
              [ eexists; vm_compute; reflexivity | ]).
      by apply elem_of_nil in H.
  - split.
    + intros H.
      apply elem_of_cons in H as [-> | H]; [ exists 0%nat; split; [ lia | done ] | ].
      apply elem_of_cons in H as [-> | H]; [ exists 1%nat; split; [ lia | done ] | ].
      apply elem_of_cons in H as [-> | H]; [ exists 2%nat; split; [ lia | done ] | ].
      apply elem_of_cons in H as [-> | H]; [ exists 3%nat; split; [ lia | done ] | ].
      apply elem_of_cons in H as [-> | H]; [ exists 4%nat; split; [ lia | done ] | ].
      by apply elem_of_nil in H.
    + intros (k & Hk & ->).
      do 5 (destruct k as [|k]; [ repeat first [ by left | right ] | ]). lia.
Qed.

(** X9: whenever [plot_events] is called, in a complete run or not, the
    array was loaded from '/home/matteo/raw_ndarray.npy' and the call is
    given the table [find_events] returned for the recording constructed from
    that array, the colour table and [event_id]; under the contracts of
    [create_info] and [RawArray] the recording is that array under the
    script's metadata, the sampling frequency passed is 15.625 and the first
    sample 0. *)
Theorem events_plot_arguments `{L : Library} (fs : FS) (c : Call) (o : option exn) :
  create_info_contract → RawArray_contract →
  (c, o) ∈ st_trace (run fs).1 → op_of c = OPlotEvents →
  ∃ (arr : ndarray) (ev : Events),
    np_load fs "/home/matteo/raw_ndarray.npy" = inr arr ∧
    RawArray arr (mkInfo channel_names channel_types sfreq) 0
      = inr (mkRaw (mkInfo channel_names channel_types sfreq) arr 0) ∧
    find_events (mkRaw (mkInfo channel_names channel_types sfreq) arr 0) "Events" 1
      = inr ev ∧
    c = CPlotEvents ev 15.625%Q 0 color event_id.
Proof.
  intros Hinfo Hraw Hin Hop. destruct (run fs) as [s r] eqn:Hrun.
  destruct (run_plot_events _ _ _ _ _ Hrun Hin Hop)
    as (arr & info & raw & ev & Hload & Hi & Hr & He & ->).
  pose proof (Hraw _ _ _ _ Hr) as ->. apply Hinfo in Hi as ->.
  exists arr, ev. split_and!; [ exact Hload | exact Hr | exact He | reflexivity ].
Qed.

Lemma events_plot_arguments_witness :
  st_trace (run (L := Toy.lib) Toy.disk).1 !! 4%nat =
    Some (CPlotEvents [(40, 0, 2); (52, 2, 4); (64, 4, 2); (76, 2, 8)]%Z
            15.625%Q 0 color event_id, None) ∧
  ∃ (arr : ndarray) (ev : Events),
    @np_load Toy.lib Toy.disk "/home/matteo/raw_ndarray.npy" = inr arr ∧
    @find_events Toy.lib (mkRaw (mkInfo channel_names channel_types sfreq) arr 0)
      "Events" 1 = inr ev ∧
    CPlotEvents [(40, 0, 2); (52, 2, 4); (64, 4, 2); (76, 2, 8)]%Z
      15.625%Q 0 color event_id
    = CPlotEvents ev 15.625%Q 0 color event_id.
Proof.
  assert (Hat : st_trace (run (L := Toy.lib) Toy.disk).1 !! 4%nat =
                Some (CPlotEvents [(40, 0, 2); (52, 2, 4); (64, 4, 2); (76, 2, 8)]%Z
                        15.625%Q 0 color event_id, None))
    by (vm_compute; reflexivity).
  split; [ exact Hat | ].
  destruct (events_plot_arguments (L := Toy.lib) Toy.disk _ _ ToyFacts.create_info_ok
              ToyFacts.RawArray_ok (list_elem_of_lookup_2 _ _ _ Hat) eq_refl)
    as (arr & ev & Hload & _ & Hev & Hc).
  exists arr, ev. split_and!; [ exact Hload | exact Hev | exact Hc ].
Defined.

(** X10: whenever the recording is plotted, in a complete run or not, what
    is plotted is the result of the band-pass filter between [l_freq] and
    [h_freq], the band the figure title names, together with the events
    found on the recording before it was filtered, from time 0.0; the first
    plot asks for all 41 channels over [np.max] of the times, the second for
    36 seconds. *)
Theorem recording_plots_show_filtered_data `{L : Library} (fs : FS) (c : Call)
    (o : option exn) :
  (c, o) ∈ st_trace (run fs).1 → op_of c = ORawPlot →
  ∃ raw0 raw1 a,
    c = CRawPlot raw1 a ∧
    raw_filter raw0 l_freq h_freq "firwin" = inr raw1 ∧
    find_events raw0 "Events" 1 = inr (pa_events a) ∧
    pa_start a = 0.0%Q ∧
    (pa_title a = title_92 ∧ pa_n_channels a = Some 41%nat ∧
     np_max (raw_times raw1) = inr (pa_duration a)
     ∨ pa_title a = title_103 ∧ pa_n_channels a = None ∧ pa_duration a = 36%Q).
Proof.
  intros Hin Hop. destruct (run fs) as [s r] eqn:Hrun.
  destruct (run_raw_plot _ _ _ _ _ Hrun Hin Hop)
    as (raw0 & ev & raw1 & duration & Hev & Hfilt & Hmax & [-> | ->]);
    eexists raw0, raw1, _; (split_and!; [ reflexivity | exact Hfilt | exact Hev | reflexivity | ]).
  - left. by split_and!.
  - right. by split_and!.
Qed.

Lemma recording_plots_show_filtered_data_witness :
  ∃ raw0 raw1 a,
    @raw_filter Toy.lib raw0 l_freq h_freq "firwin" = inr raw1 ∧
    st_trace (run (L := Toy.lib) Toy.disk).1 !! 8%nat = Some (CRawPlot raw1 a, None) ∧
    pa_duration a = 36%Q.
Proof.
  assert (Hat : ∃ raw1 a,
            st_trace (run (L := Toy.lib) Toy.disk).1 !! 8%nat
              = Some (CRawPlot raw1 a, None) ∧ pa_duration a = 36%Q).
  { eexists _, _. split; [ vm_compute; reflexivity | reflexivity ]. }
  destruct Hat as (raw1 & a & Hat & Hdur).
  destruct (recording_plots_show_filtered_data (L := Toy.lib) Toy.disk _ _
              (list_elem_of_lookup_2 _ _ _ Hat) eq_refl)
    as (raw0 & raw1' & a' & [= <- <-] & Hfilt & _).
  exists raw0, raw1, a. split_and!; [ exact Hfilt | exact Hat | exact Hdur ].
Defined.
